(** * panch-tutorials: the Streamlit demo dashboard and the sample API

    A shallow embedding of

    - [python_streamlit/sample_apps/streamlit_demo_app.py]: the two mock-data
      generators and the Dashboard page's filter and metrics blocks; the
      grouped aggregates behind its charts, the registration form's checks,
      the Session State page and the cached computation;
    - [sample_api/app/main.py]: the four FastAPI routes.

    Conventions.
    - A [datetime.date] is its proleptic Gregorian ordinal ([date.toordinal]),
      an integer; Python compares dates in that order.
    - A NumPy [float64] that the program only adds, compares, negates or
      clips is an exact rational ([Q]); the one place where the program can
      produce a not-a-number, the mean of zero rows, has its own value.
    - NumPy's global random state is threaded explicitly.  The samplers of
      [numpy.random] are not part of the repository: they are the variables
      of a section, and what NumPy documents about them is a hypothesis
      where a proof needs it. *)

From Stdlib Require Import Ascii String DecimalString.
From Stdlib Require Import Bool ZArith QArith Qabs Qminmax Lia Lqa List.
From Stdlib Require Import Permutation Sorted.
Import ListNotations.

Local Open Scope string_scope.
Local Open Scope list_scope.
Local Open Scope Z_scope.

(** The integers [start], [start + 1], ..., [start + n - 1]. *)
Fixpoint count_from (start : Z) (n : nat) : list Z :=
  match n with
  | O => []
  | S n' => start :: count_from (start + 1) n'
  end.

(** [range(lo, hi)]. *)
Definition range (lo hi : Z) : list Z := count_from lo (Z.to_nat (hi - lo)).

(* ===================================================================== *)
(** ** Calendar dates *)
(* ===================================================================== *)

Module Calendar.

Definition date := Z.

(** Year -> 1 if leap year, else 0 (as a boolean). *)
Definition is_leap (year : Z) : bool :=
  (year mod 4 =? 0) && (negb (year mod 100 =? 0) || (year mod 400 =? 0)).

(** Number of days before January 1st of [year]. *)
Definition days_before_year (year : Z) : Z :=
  let y := year - 1 in
  y * 365 + y / 4 - y / 100 + y / 400.

(** Number of days in [year] before the first day of [month]. *)
Definition days_before_month (year month : Z) : Z :=
  nth (Z.to_nat month) [0; 0; 31; 59; 90; 120; 151; 181; 212; 243; 273; 304; 334] 0
  + (if (2 <? month) && is_leap year then 1 else 0).

(** [date(year, month, day).toordinal()]. *)
Definition ymd2ord (year month day : Z) : date :=
  days_before_year year + days_before_month year month + day.

(** [pd.date_range(start=..., end=..., freq='D')]: every day from [start]
    to [stop], both included; empty when [stop] is before [start]. *)
Definition date_range (start stop : date) : list date :=
  count_from start (Z.to_nat (stop - start + 1)).

End Calendar.
Import Calendar.

(* ===================================================================== *)
(** ** NumPy's global random state *)
(* ===================================================================== *)

(** A computation that reads and advances the global random state. *)
Definition Rand (rng A : Type) : Type := rng -> A * rng.

Definition ret {rng A} (a : A) : Rand rng A := fun s => (a, s).

Definition bind {rng A B} (m : Rand rng A) (k : A -> Rand rng B) : Rand rng B :=
  fun s => let (a, s') := m s in k a s'.

Declare Scope rand_scope.
Delimit Scope rand_scope with rand.
Notation "x <- m ;; k" := (bind m (fun x => k))
  (at level 61, m at next level, right associativity) : rand_scope.
Notation "m ;;; k" := (bind m (fun _ => k))
  (at level 61, right associativity) : rand_scope.

(** [size] successive draws of one sampler, first draw first. *)
Fixpoint draws {rng A} (size : nat) (m : Rand rng A) : Rand rng (list A) :=
  match size with
  | O => ret []
  | S n => (x <- m ;; xs <- draws n m ;; ret (x :: xs))%rand
  end.

(* ===================================================================== *)
(** ** The mock tables *)
(* ===================================================================== *)

(** One row of the frame built by [generate_sales_data]. *)
Record SalesRecord : Type := mkSales {
  date_of : date;
  sales : Q;
  quantity : Z;
  category : string;
  region : string
}.

(** One row of the frame built by [generate_user_data]. *)
Record UserRecord : Type := mkUser {
  user_id : Z;
  name : string;
  age : Z;
  city : string;
  score : Q;
  active : bool
}.

(** [pd.DataFrame(data)] for the five columns of the sales table: row [i]
    holds entry [i] of every column. *)
Fixpoint sales_frame (dates : list date) (sl : list Q) (qs : list Z)
    (cs rs : list string) : list SalesRecord :=
  match dates, sl, qs, cs, rs with
  | d :: dates', x :: sl', q :: qs', c :: cs', r :: rs' =>
      mkSales d x q c r :: sales_frame dates' sl' qs' cs' rs'
  | _, _, _, _, _ => []
  end.

(** [pd.DataFrame(data)] for the six columns of the user table. *)
Fixpoint user_frame (ids : list Z) (ns : list string) (ages : list Z)
    (cities : list string) (scores : list Q) (acts : list bool)
    : list UserRecord :=
  match ids, ns, ages, cities, scores, acts with
  | i :: ids', n :: ns', a :: ages', c :: cities', x :: scores', b :: acts' =>
      mkUser i n a c x b :: user_frame ids' ns' ages' cities' scores' acts'
  | _, _, _, _, _, _ => []
  end.

(** [df['sales'] = df['sales'].abs()]. *)
Definition abs_sales (df : list SalesRecord) : list SalesRecord :=
  map (fun r => mkSales (date_of r) (Qabs (sales r)) (quantity r)
                        (category r) (region r)) df.

(** [Series.clip(lower, upper)] on one entry. *)
Definition clip (lower upper x : Q) : Q := Qmin (Qmax x lower) upper.

(** [df['score'] = df['score'].clip(0, 100)]. *)
Definition clip_score (df : list UserRecord) : list UserRecord :=
  map (fun u => mkUser (user_id u) (name u) (age u) (city u)
                       (clip 0 100 (score u)) (active u)) df.

(** [f'User {i}']. *)
Definition user_name (i : Z) : string :=
  String.append "User " (NilZero.string_of_int (Z.to_int i)).

Section Generators.

(** The state of [numpy.random]'s global generator. *)
Variable rng : Type.

(** [np.random.seed(n)]: the state that seeding with [n] installs. *)
Variable seeded : Z -> rng.

(** One draw of [np.random.normal(loc, scale)]. *)
Variable normal1 : Q -> Q -> Rand rng Q.

(** One draw of [np.random.randint(low, high)]. *)
Variable randint1 : Z -> Z -> Rand rng Z.

(** One draw of [np.random.choice(a)] for a population of [n] entries:
    the position of the entry drawn. *)
Variable choice1 : nat -> Rand rng nat.

(** One draw of [np.random.choice(a, p=p)]: the position drawn. *)
Variable choice_p1 : list Q -> Rand rng nat.

Definition np_random_seed (n : Z) : Rand rng unit := fun _ => (tt, seeded n).

(** What NumPy documents of [randint]: the draw lies in [[low, high)]. *)
Definition randint_in_range : Prop :=
  forall low high s, low < high -> low <= fst (randint1 low high s) < high.

Definition np_random_normal (loc scale : Q) (size : nat) : Rand rng (list Q) :=
  draws size (normal1 loc scale).

Definition np_random_randint (low high : Z) (size : nat) : Rand rng (list Z) :=
  draws size (randint1 low high).

(** [np.random.choice(a, size)]; [dflt] only fills the type where a
    position is outside [a]. *)
Definition np_random_choice {A} (dflt : A) (a : list A) (size : nat)
    : Rand rng (list A) :=
  (idx <- draws size (choice1 (length a)) ;;
   ret (map (fun i => nth i a dflt) idx))%rand.

(** [np.random.choice(a, size, p=p)]. *)
Definition np_random_choice_p {A} (dflt : A) (a : list A) (size : nat)
    (p : list Q) : Rand rng (list A) :=
  (idx <- draws size (choice_p1 p) ;;
   ret (map (fun i => nth i a dflt) idx))%rand.

Definition generate_sales_data : Rand rng (list SalesRecord) :=
  (let dates := date_range (ymd2ord 2024 1 1) (ymd2ord 2024 12 31) in
   np_random_seed 42 ;;;
   sl <- np_random_normal 1000 200 (length dates) ;;
   qs <- np_random_randint 10 100 (length dates) ;;
   cs <- np_random_choice "" ["Electronics"; "Clothing"; "Food"; "Books"]
           (length dates) ;;
   rs <- np_random_choice "" ["North"; "South"; "East"; "West"]
           (length dates) ;;
   let df := sales_frame dates sl qs cs rs in
   ret (abs_sales df))%rand.

Definition generate_user_data : Rand rng (list UserRecord) :=
  (np_random_seed 42 ;;;
   let ids := range 1 101 in
   let ns := map user_name (range 1 101) in
   ages <- np_random_randint 18 65 100 ;;
   cities <- np_random_choice ""
               ["New York"; "Los Angeles"; "Chicago"; "Houston"; "Phoenix"]
               100 ;;
   scores <- np_random_normal 75 15 100 ;;
   acts <- np_random_choice_p false [true; false] 100 [7 # 10; 3 # 10] ;;
   let df := user_frame ids ns ages cities scores acts in
   ret (clip_score df))%rand.

End Generators.

(* ===================================================================== *)
(** ** The Dashboard page: filters and metrics *)
(* ===================================================================== *)

(** [Series.unique()]: the distinct values, in order of first appearance. *)
Fixpoint unique (col : list string) : list string :=
  match col with
  | [] => []
  | x :: col' => x :: filter (fun y => negb (String.eqb x y)) (unique col')
  end.

(** [Series.isin(values)]: the boolean mask of the entries found in
    [values]. *)
Definition isin (col : list string) (values : list string) : list bool :=
  map (fun c => existsb (String.eqb c) values) col.

(** [mask1 & mask2], entry by entry. *)
Fixpoint mask_and (m1 m2 : list bool) : list bool :=
  match m1, m2 with
  | b1 :: m1', b2 :: m2' => (b1 && b2) :: mask_and m1' m2'
  | _, _ => []
  end.

(** [df[mask]]: the rows whose mask entry is [True], in the frame's order. *)
Fixpoint select {A} (df : list A) (mask : list bool) : list A :=
  match df, mask with
  | r :: df', b :: mask' =>
      if b then r :: select df' mask' else select df' mask'
  | _, _ => []
  end.

(** What [st.sidebar.date_input] hands back: one date, or a tuple of the
    dates picked so far (none, the start only, or start and end). *)
Inductive date_input_value : Type :=
| OneDate (d : date)
| DateTuple (ds : list date).

(** [Series.min()] and [Series.max()] of a date column; [None] on zero
    rows. *)
Definition series_min (col : list date) : option date :=
  match col with
  | [] => None
  | d :: col' => Some (fold_left Z.min col' d)
  end.

Definition series_max (col : list date) : option date :=
  match col with
  | [] => None
  | d :: col' => Some (fold_left Z.max col' d)
  end.

(** The defaults the three filter widgets are created with. *)
Definition default_categories (sales_df : list SalesRecord) : list string :=
  unique (map category sales_df).

Definition default_regions (sales_df : list SalesRecord) : list string :=
  unique (map region sales_df).

Definition default_date_range (sales_df : list SalesRecord)
    : option date_input_value :=
  match series_min (map date_of sales_df), series_max (map date_of sales_df) with
  | Some lo, Some hi => Some (DateTuple [lo; hi])
  | _, _ => None
  end.

(** The "Apply filters" block. *)
Definition apply_filters (sales_df : list SalesRecord)
    (selected_categories selected_regions : list string)
    (date_range : date_input_value) : list SalesRecord :=
  let filtered_df :=
    select sales_df
      (mask_and (isin (map category sales_df) selected_categories)
                (isin (map region sales_df) selected_regions)) in
  match date_range with
  | DateTuple [d0; d1] =>
      select filtered_df
        (mask_and (map (fun d => d0 <=? d) (map date_of filtered_df))
                  (map (fun d => d <=? d1) (map date_of filtered_df)))
  | _ => filtered_df
  end.

(** A [float64] result that may be not-a-number. *)
Inductive float64 : Type :=
| Num (q : Q)
| NaN.

(** [Series.sum()] of a float column; [0] on zero rows. *)
Definition series_sum (col : list Q) : Q := fold_left Qplus col 0%Q.

(** [Series.sum()] of an integer column. *)
Definition series_sum_int (col : list Z) : Z := fold_left Z.add col 0.

(** [Series.mean()]: the sum over the row count; not-a-number on zero
    rows. *)
Definition series_mean (col : list Q) : float64 :=
  match col with
  | [] => NaN
  | _ :: _ => Num (series_sum col / inject_Z (Z.of_nat (List.length col)))
  end.

(** The values handed to the four [st.metric] cells, before formatting. *)
Record Metrics : Type := mkMetrics {
  total_sales : Q;
  total_sales_delta : Q;
  total_orders : nat;
  avg_order_value : float64;
  total_quantity : Z
}.

(** The "Metrics" block. *)
Definition dashboard_metrics (sales_df filtered_df : list SalesRecord)
    : Metrics :=
  {| total_sales := series_sum (map sales filtered_df);
     total_sales_delta :=
       (series_sum (map sales filtered_df) - series_sum (map sales sales_df))%Q;
     total_orders := List.length filtered_df;
     avg_order_value := series_mean (map sales filtered_df);
     total_quantity := series_sum_int (map quantity filtered_df) |}.

(** The filter the specification describes: a record is kept when it
    satisfies every active predicate, and a dimension whose selection is
    empty keeps every record. *)
Definition spec_dimension (selection : list string) (v : string) : bool :=
  match selection with
  | [] => true
  | _ :: _ => existsb (String.eqb v) selection
  end.

Definition spec_filter (sales_df : list SalesRecord)
    (selected_categories selected_regions : list string)
    (d0 d1 : date) : list SalesRecord :=
  filter (fun r => spec_dimension selected_categories (category r)
                   && spec_dimension selected_regions (region r)
                   && ((d0 <=? date_of r) && (date_of r <=? d1)))
         sales_df.

(** The predicate the code's masks compute, row by row. *)
Definition date_pred (date_range : date_input_value) (d : date) : bool :=
  match date_range with
  | DateTuple [d0; d1] => (d0 <=? d) && (d <=? d1)
  | _ => true
  end.

Definition keeps (selected_categories selected_regions : list string)
    (date_range : date_input_value) (r : SalesRecord) : bool :=
  existsb (String.eqb (category r)) selected_categories
  && existsb (String.eqb (region r)) selected_regions
  && date_pred date_range (date_of r).

(* ===================================================================== *)
(** ** The sample API *)
(* ===================================================================== *)

Module API.

(** JSON values, as far as the four routes produce them. *)
#[warnings="-register-all"]
Inductive json : Type :=
| JNull
| JStr (s : string)
| JInt (n : Z)
| JObj (fields : list (string * json)).

(** A response: the JSON body of a 200, or the 422 that FastAPI sends
    when request validation fails, with the places at fault. *)
Inductive response : Type :=
| OK (body : json)
| UnprocessableEntity (locs : list string).

(** [Query(default, ge=..., le=...)]. *)
Record QueryParam : Type := Query {
  q_default : option Z;
  q_ge : option Z;
  q_le : option Z
}.

Definition bound_ok (holds : Z -> Z -> bool) (bound : option Z) (v : Z) : bool :=
  match bound with
  | None => true
  | Some b => holds v b
  end.

(** Validation of one integer query parameter: an omitted parameter takes
    the default, a given one must meet the declared bounds. *)
Definition validate_query (p : QueryParam) (given : option Z)
    : option (option Z) :=
  match given with
  | None => Some (q_default p)
  | Some v =>
      if bound_ok Z.geb (q_ge p) v && bound_ok Z.leb (q_le p) v
      then Some (Some v) else None
  end.

Definition json_of_optional_int (v : option Z) : json :=
  match v with
  | None => JNull
  | Some n => JInt n
  end.

Definition json_of_optional_str (v : option string) : json :=
  match v with
  | None => JNull
  | Some s => JStr s
  end.

Record Item : Type := mkItem {
  item_name : string;
  item_description : option string
}.

Record ItemResponse : Type := mkItemResponse {
  resp_item_id : string;
  resp_name : string;
  resp_description : option string;
  resp_message : string
}.

(** A JSON request body, as far as [Item] reads it: the [name] and
    [description] members when present (and not null). *)
Record ItemBody : Type := mkItemBody {
  body_name : option string;
  body_description : option string
}.

(** Validation of a body against [Item]: [name] is required,
    [description] defaults to [None]. *)
Definition parse_Item (b : ItemBody) : option Item :=
  match body_name b with
  | None => None
  | Some n => Some (mkItem n (body_description b))
  end.

(** Serialisation through [response_model=ItemResponse]. *)
Definition ItemResponse_json (r : ItemResponse) : json :=
  JObj [("item_id", JStr (resp_item_id r));
        ("name", JStr (resp_name r));
        ("description", json_of_optional_str (resp_description r));
        ("message", JStr (resp_message r))].

(** An incoming request, as far as a route without parameters could see
    it. *)
Record Request : Type := mkRequest {
  req_headers : list (string * string);
  req_body : option string
}.

(** The handlers. *)

Definition health_check : json :=
  JObj [("status", JStr "healthy")].

Definition get_item (item_id : string) (skip limit : option Z) : json :=
  JObj [("item_id", JStr item_id);
        ("skip", json_of_optional_int skip);
        ("limit", json_of_optional_int limit);
        ("message", JStr "GET request processed successfully")].

Definition create_item (item : Item) : ItemResponse :=
  {| resp_item_id := "new_item";
     resp_name := item_name item;
     resp_description := item_description item;
     resp_message := "POST request processed successfully" |}.

Definition update_item (item_id : string) (item : Item) : ItemResponse :=
  {| resp_item_id := item_id;
     resp_name := item_name item;
     resp_description := item_description item;
     resp_message := "PUT request processed successfully" |}.

(** The routes: validation of the declared parameters, then the
    handler. *)

Definition skip_param : QueryParam := Query (Some 0) (Some 0) None.
Definition limit_param : QueryParam := Query (Some 10) (Some 1) (Some 100).

(** [GET /health]. *)
Definition route_health (_ : Request) : response := OK health_check.

(** [GET /items/{item_id}?skip=&limit=]. *)
Definition route_get_item (item_id : string) (skip limit : option Z)
    : response :=
  match validate_query skip_param skip, validate_query limit_param limit with
  | Some s, Some l => OK (get_item item_id s l)
  | None, Some _ => UnprocessableEntity ["skip"]
  | Some _, None => UnprocessableEntity ["limit"]
  | None, None => UnprocessableEntity ["skip"; "limit"]
  end.

(** [POST /items]. *)
Definition route_create_item (body : ItemBody) : response :=
  match parse_Item body with
  | None => UnprocessableEntity ["name"]
  | Some item => OK (ItemResponse_json (create_item item))
  end.

(** [PUT /items/{item_id}]. *)
Definition route_update_item (item_id : string) (body : ItemBody)
    : response :=
  match parse_Item body with
  | None => UnprocessableEntity ["name"]
  | Some item => OK (ItemResponse_json (update_item item_id item))
  end.

End API.

(* ===================================================================== *)
(** ** A stand-in generator *)
(* ===================================================================== *)

(** A linear congruential generator behind the sampler interface, to run
    the two table generators on concrete draws. *)
Module Lcg.

Definition rng := Z.

Definition seeded (n : Z) : rng := n mod 2147483648.

Definition next (s : rng) : rng := (s * 1103515245 + 12345) mod 2147483648.

Definition normal1 (loc scale : Q) : Rand rng Q :=
  fun s => ((loc + scale * ((s mod 9 - 4) # 2))%Q, next s).

Definition randint1 (low high : Z) : Rand rng Z :=
  fun s => (low + s mod (high - low), next s).

Definition choice1 (n : nat) : Rand rng nat :=
  fun s => (Z.to_nat (s mod Z.of_nat n), next s).

Definition choice_p1 (p : list Q) : Rand rng nat :=
  fun s => (if s mod 10 <? 7 then 0%nat else 1%nat, next s).

Definition sales_df : list SalesRecord :=
  fst (generate_sales_data rng seeded normal1 randint1 choice1 0).

Definition users_df : list UserRecord :=
  fst (generate_user_data rng seeded normal1 randint1 choice1 choice_p1 0).

End Lcg.

(** A three-row table for the counterexamples. *)
Definition small_df : list SalesRecord :=
  [ mkSales (ymd2ord 2024 1 1) 950 12 "Electronics" "North";
    mkSales (ymd2ord 2024 1 2) 1100 40 "Food" "North";
    mkSales (ymd2ord 2024 1 3) 700 25 "Electronics" "West" ].

(* ===================================================================== *)
(** ** Grouped aggregates of the sales table *)
(* ===================================================================== *)

(** What NumPy documents of [choice]: the position drawn is one of the
    population's. *)
Definition choice_in_range (rng : Type) (choice1 : nat -> Rand rng nat) : Prop :=
  forall n s, (0 < n)%nat -> (fst (choice1 n s) < n)%nat.

(** The distinct group keys of a column, in order of first appearance. *)
Fixpoint distinct {K} (eqb : K -> K -> bool) (col : list K) : list K :=
  match col with
  | [] => []
  | x :: col' => x :: filter (fun y => negb (eqb x y)) (distinct eqb col')
  end.

(** [groupby] sorts the group keys ([sort=True] is its default). *)
Fixpoint insert_key {K} (leb : K -> K -> bool) (k : K) (l : list K) : list K :=
  match l with
  | [] => [k]
  | x :: l' => if leb k x then k :: l else x :: insert_key leb k l'
  end.

Definition sort_keys {K} (leb : K -> K -> bool) (l : list K) : list K :=
  fold_right (insert_key leb) [] l.

(** The rows of one group. *)
Definition group_rows {K} (eqb : K -> K -> bool) (key : SalesRecord -> K)
    (k : K) (df : list SalesRecord) : list SalesRecord :=
  filter (fun r => eqb (key r) k) df.

(** [df.groupby(key)['sales'].sum().reset_index()]: one row per group key,
    keys ascending, with the group's sum of sales. *)
Definition groupby_sales {K} (eqb leb : K -> K -> bool)
    (key : SalesRecord -> K) (df : list SalesRecord) : list (K * Q) :=
  map (fun k => (k, series_sum (map sales (group_rows eqb key k df))))
      (sort_keys leb (distinct eqb (map key df))).

(** [filtered_df.groupby('date')['sales'].sum().reset_index()]. *)
Definition daily_sales (df : list SalesRecord) : list (date * Q) :=
  groupby_sales Z.eqb Z.leb date_of df.

(** [filtered_df.groupby('category')['sales'].sum().reset_index()]. *)
Definition category_sales (df : list SalesRecord) : list (string * Q) :=
  groupby_sales String.eqb String.leb category df.

(** [filtered_df.groupby('region').agg({'sales': 'sum', 'quantity': 'sum'})
    .reset_index()]. *)
Definition regional_data (df : list SalesRecord) : list (string * Q * Z) :=
  map (fun k => (k,
                 series_sum (map sales (group_rows String.eqb region k df)),
                 series_sum_int (map quantity (group_rows String.eqb region k df))))
      (sort_keys String.leb (distinct String.eqb (map region df))).

(* ===================================================================== *)
(** ** The Forms page: the registration form *)
(* ===================================================================== *)

Module Forms.

(** [sub in s] on strings. *)
Fixpoint contains (sub s : string) : bool :=
  if String.prefix sub s then true
  else match s with
       | EmptyString => false
       | String _ s' => contains sub s'
       end.

(** [not s] on a string. *)
Definition is_blank (s : string) : bool := String.eqb s "".

(** The [errors] list built when the registration form is submitted. *)
Definition registration_errors (first_name last_name email : string)
    : list string :=
  let errors := [] in
  let errors :=
    if is_blank first_name || is_blank last_name
    then errors ++ ["First and last name are required"] else errors in
  let errors :=
    if is_blank email then errors ++ ["Email is required"]
    else if negb (contains "@" email) then errors ++ ["Invalid email format"]
    else errors in
  errors.

(** What the submission shows: the errors, or the success branch. *)
Inductive submission : Type :=
| Rejected (errors : list string)
| Registered.

Definition submit_registration (first_name last_name email : string)
    : submission :=
  match registration_errors first_name last_name email with
  | [] => Registered
  | errors => Rejected errors
  end.

End Forms.

(* ===================================================================== *)
(** ** The Session State page *)
(* ===================================================================== *)

Module SessionPage.

(** [st.session_state] between two runs of the script: each of the three
    keys is absent or holds a value. *)
Record Stored : Type := mkStored {
  stored_counter : option Z;
  stored_cart_items : option (list string);
  stored_user_data : option (list (string * string))
}.

(** A session that has never run the script. *)
Definition fresh : Stored := mkStored None None None.

(** [st.session_state] once the three keys are there. *)
Record Session : Type := mkSession {
  counter : Z;
  cart_items : list string;
  user_data : list (string * string)
}.

(** "Initialize session state": a key that is absent gets its initial
    value, a key that is there keeps its value. *)
Definition init_session (st : Stored) : Session :=
  {| counter := match stored_counter st with Some c => c | None => 0 end;
     cart_items := match stored_cart_items st with Some l => l | None => [] end;
     user_data := match stored_user_data st with Some d => d | None => [] end |}.

Definition persist (s : Session) : Stored :=
  mkStored (Some (counter s)) (Some (cart_items s)) (Some (user_data s)).

(** The widget whose click triggers a run of the script. *)
Inductive event : Type :=
| Decrement
| Increment
| AddToCart (new_item : string)
| ClearCart
| Remove (i : nat)
| Save (name email timestamp : string).

(** [l.pop(i)] for an index inside the list: the list without entry [i]. *)
Definition pop {A} (i : nat) (l : list A) : list A :=
  firstn i l ++ skipn (S i) l.

(** [f"{i+1}. {item}"] for every [(i, item)] of [enumerate(cart_items)],
    counting from [i]. *)
Fixpoint cart_lines (i : nat) (items : list string) : list string :=
  match items with
  | [] => []
  | item :: rest =>
      String.append (NilZero.string_of_uint (Nat.to_uint (i + 1)))
        (String.append ". " item)
      :: cart_lines (S i) rest
  end.

(** The cart part of the page: the numbered items, or the "Cart is empty"
    note. *)
Inductive cart_view : Type :=
| CartEmpty
| CartLines (lines : list string).

(** What one completed run shows: the "Counter" metric, the cart, and the
    stored data when there is some. *)
Record View : Type := mkView {
  shown_counter : Z;
  shown_cart : cart_view;
  shown_user_data : option (list (string * string))
}.

(** One run of the page, top to bottom, triggered by the click [ev] (or by
    [st.rerun()], with no click).  The second component is [None] when the
    run ends in [st.rerun()]. *)
Definition page_run (ev : option event) (s : Session) : Session * option View :=
  (* col1: Decrement *)
  let c := match ev with Some Decrement => counter s - 1 | _ => counter s end in
  (* col2: the metric *)
  let shown := c in
  (* col3: Increment *)
  let c := match ev with Some Increment => c + 1 | _ => c end in
  let cart := cart_items s in
  (* from the cart listing down to the stored data *)
  let finish :=
    let view_cart :=
      match cart with
      | [] => CartEmpty
      | _ :: _ => CartLines (cart_lines 0 cart)
      end in
    let data :=
      match ev with
      | Some (Save name email timestamp) =>
          [("name", name); ("email", email); ("timestamp", timestamp)]
      | _ => user_data s
      end in
    let view_data :=
      match data with
      | [] => None
      | _ :: _ => Some data
      end in
    (mkSession c cart data, Some (mkView shown view_cart view_data)) in
  match ev with
  | Some (AddToCart new_item) =>
      if negb (String.eqb new_item "")
      then (mkSession c (cart ++ [new_item]) (user_data s), None)
      else finish
  | Some ClearCart => (mkSession c [] (user_data s), None)
  | Some (Remove i) =>
      if (i <? List.length cart)%nat
      then (mkSession c (pop i cart) (user_data s), None)
      else finish
  | _ => finish
  end.

(** One run of the whole script on the stored session. *)
Definition script_run (ev : option event) (st : Stored) : Stored * option View :=
  let (s, v) := page_run ev (init_session st) in (persist s, v).

(** One click: the run it triggers and, when that run ends in
    [st.rerun()], the run that follows. *)
Definition interact (ev : event) (st : Stored) : Stored * option View :=
  let (st1, v) := script_run (Some ev) st in
  match v with
  | Some _ => (st1, v)
  | None => script_run None st1
  end.

(** A sequence of clicks, first click first. *)
Definition interactions (evs : list event) (st : Stored) : Stored :=
  fold_left (fun st ev => fst (interact ev st)) evs st.

(** The net effect of one click on each of the three keys. *)
Definition counter_delta (ev : event) : Z :=
  match ev with
  | Decrement => -1
  | Increment => 1
  | _ => 0
  end.

Definition cart_after (ev : event) (cart : list string) : list string :=
  match ev with
  | AddToCart new_item =>
      if String.eqb new_item "" then cart else cart ++ [new_item]
  | ClearCart => []
  | Remove i => if (i <? List.length cart)%nat then pop i cart else cart
  | _ => cart
  end.

Definition user_data_after (ev : event) (data : list (string * string))
    : list (string * string) :=
  match ev with
  | Save name email timestamp =>
      [("name", name); ("email", email); ("timestamp", timestamp)]
  | _ => data
  end.

(** What the page shows of a cart. *)
Definition view_of_cart (cart : list string) : cart_view :=
  match cart with
  | [] => CartEmpty
  | _ :: _ => CartLines (cart_lines 0 cart)
  end.

End SessionPage.

(* ===================================================================== *)
(** ** The Caching page *)
(* ===================================================================== *)

(** [sum(range(n))]. *)
Definition expensive_operation (n : Z) : Z := fold_left Z.add (range 0 n) 0.

(* ===================================================================== *)
(** ** Calendar and frame facts *)
(* ===================================================================== *)

Example ymd2ord_new_year : ymd2ord 2024 1 1 = 738886.
Proof. reflexivity. Qed.

Example ymd2ord_new_years_eve : ymd2ord 2024 12 31 = 739251.
Proof. reflexivity. Qed.

Example year_2024_has_366_days :
  List.length (date_range (ymd2ord 2024 1 1) (ymd2ord 2024 12 31)) = 366%nat.
Proof. reflexivity. Qed.

Example user_name_7 : user_name 7 = "User 7".
Proof. reflexivity. Qed.

Lemma count_from_length (start : Z) (n : nat) :
  List.length (count_from start n) = n.
Proof.
  revert start; induction n as [|n IH]; intros start; simpl; [reflexivity|].
  now rewrite IH.
Qed.

Lemma count_from_bounds (n : nat) :
  forall start d, In d (count_from start n) -> start <= d < start + Z.of_nat n.
Proof.
  induction n as [|n IH]; intros start d Hin; simpl in Hin; [contradiction|].
  destruct Hin as [<- | Hin]; [lia|].
  apply IH in Hin. lia.
Qed.

Section RandFacts.

Context {rng A : Type}.

Lemma draws_length (m : Rand rng A) (size : nat) :
  forall s, List.length (fst (draws size m s)) = size.
Proof.
  induction size as [|n IH]; intros s; simpl; [reflexivity|].
  unfold bind. destruct (m s) as [x s1].
  specialize (IH s1). destruct (draws n m s1) as [xs s2].
  simpl in *. now rewrite IH.
Qed.

(** Whatever holds of every single draw holds of every entry drawn. *)
Lemma draws_Forall (P : A -> Prop) (m : Rand rng A) :
  (forall s, P (fst (m s))) ->
  forall size s, Forall P (fst (draws size m s)).
Proof.
  intros Hm size; induction size as [|n IH]; intros s; simpl.
  - constructor.
  - unfold bind. pose proof (Hm s) as Hx. destruct (m s) as [x s1].
    specialize (IH s1). destruct (draws n m s1) as [xs s2].
    simpl in *. now constructor.
Qed.

End RandFacts.

Lemma sales_frame_dates (dates : list date) :
  forall sl qs cs rs,
    List.length sl = List.length dates ->
    List.length qs = List.length dates ->
    List.length cs = List.length dates ->
    List.length rs = List.length dates ->
    map date_of (sales_frame dates sl qs cs rs) = dates.
Proof.
  induction dates as [|d dates IH]; intros sl qs cs rs Hs Hq Hc Hr.
  - reflexivity.
  - destruct sl, qs, cs, rs; simpl in *; try discriminate.
    f_equal. apply IH; congruence.
Qed.

Lemma user_frame_ages (P : Z -> Prop) (ages : list Z) :
  Forall P ages ->
  forall ids ns cities scores acts,
    Forall (fun u => P (age u)) (user_frame ids ns ages cities scores acts).
Proof.
  induction 1 as [|a ages Ha Hages IH]; intros ids ns cities scores acts.
  - destruct ids, ns; constructor.
  - destruct ids, ns, cities, scores, acts; simpl; try constructor; auto.
Qed.

Lemma abs_sales_dates (df : list SalesRecord) :
  map date_of (abs_sales df) = map date_of df.
Proof. unfold abs_sales. rewrite map_map. reflexivity. Qed.

Lemma abs_sales_nonneg (df : list SalesRecord) :
  Forall (fun r => (0 <= sales r)%Q) (abs_sales df).
Proof.
  unfold abs_sales. apply Forall_forall. intros r Hin.
  apply in_map_iff in Hin. destruct Hin as [r0 [<- _]]. simpl.
  apply Qabs_nonneg.
Qed.

Lemma clip_bounds (lower upper x : Q) :
  (lower <= upper)%Q -> (lower <= clip lower upper x <= upper)%Q.
Proof.
  intros Hlu. unfold clip. split.
  - apply Q.min_glb; [apply Q.le_max_r | exact Hlu].
  - apply Q.le_min_r.
Qed.

Lemma clip_score_bounds (df : list UserRecord) :
  Forall (fun u => (0 <= score u <= 100)%Q) (clip_score df).
Proof.
  unfold clip_score. apply Forall_forall. intros u Hin.
  apply in_map_iff in Hin. destruct Hin as [u0 [<- _]]. simpl.
  apply clip_bounds. discriminate.
Qed.

Lemma clip_score_ages (P : Z -> Prop) (df : list UserRecord) :
  Forall (fun u => P (age u)) df ->
  Forall (fun u => P (age u)) (clip_score df).
Proof.
  unfold clip_score. rewrite !Forall_forall. intros H u Hin.
  apply in_map_iff in Hin. destruct Hin as [u0 [<- Hin0]]. simpl. auto.
Qed.

(* ===================================================================== *)
(** ** The generators *)
(* ===================================================================== *)

Section GeneratorFacts.

Variable rng : Type.
Variable seeded : Z -> rng.
Variable normal1 : Q -> Q -> Rand rng Q.
Variable randint1 : Z -> Z -> Rand rng Z.
Variable choice1 : nat -> Rand rng nat.
Variable choice_p1 : list Q -> Rand rng nat.

Local Abbreviation gen_sales :=
  (generate_sales_data rng seeded normal1 randint1 choice1).
Local Abbreviation gen_users :=
  (generate_user_data rng seeded normal1 randint1 choice1 choice_p1).

Ltac open_generator :=
  cbv beta iota zeta delta
    [generate_sales_data generate_user_data bind ret
     np_random_seed np_random_normal np_random_randint np_random_choice
     np_random_choice_p].

Ltac name_draws :=
  repeat match goal with
  | |- context [draws ?n ?m ?s] =>
      let xs := fresh "xs" in
      let s' := fresh "s" in
      let E := fresh "E" in
      destruct (draws n m s) as [xs s'] eqn:E
  end.

(** The sales table has one row per day of 2024, in calendar order. *)
Lemma generated_sales_dates (s : rng) :
  map date_of (fst (gen_sales s))
  = date_range (ymd2ord 2024 1 1) (ymd2ord 2024 12 31).
Proof.
  open_generator.
  set (dates := date_range (ymd2ord 2024 1 1) (ymd2ord 2024 12 31)).
  pose proof (draws_length (normal1 1000 200) (List.length dates) (seeded 42)) as L1.
  destruct (draws (List.length dates) (normal1 1000 200) (seeded 42)) as [sl s1].
  pose proof (draws_length (randint1 10 100) (List.length dates) s1) as L2.
  destruct (draws (List.length dates) (randint1 10 100) s1) as [qs s2].
  pose proof (draws_length (choice1 4) (List.length dates) s2) as L3.
  change (List.length ["Electronics"; "Clothing"; "Food"; "Books"]) with 4%nat.
  destruct (draws (List.length dates) (choice1 4) s2) as [cs s3].
  pose proof (draws_length (choice1 4) (List.length dates) s3) as L4.
  change (List.length ["North"; "South"; "East"; "West"]) with 4%nat.
  destruct (draws (List.length dates) (choice1 4) s3) as [rs s4].
  cbn [fst] in *. rewrite abs_sales_dates.
  apply sales_frame_dates; rewrite ?length_map; assumption.
Qed.

Lemma generated_sales_nonneg (s : rng) :
  Forall (fun r => (0 <= sales r)%Q) (fst (gen_sales s)).
Proof.
  open_generator. name_draws. cbn [fst]. apply abs_sales_nonneg.
Qed.

Lemma generated_scores_clipped (s : rng) :
  Forall (fun u => (0 <= score u <= 100)%Q) (fst (gen_users s)).
Proof.
  open_generator. name_draws. cbn [fst]. apply clip_score_bounds.
Qed.

Lemma generated_ages_in_range (s : rng) :
  randint_in_range rng randint1 ->
  Forall (fun u => 18 <= age u < 65) (fst (gen_users s)).
Proof.
  intros Hrand. open_generator.
  pose proof (draws_Forall (fun a => 18 <= a < 65) (randint1 18 65)
                (fun s0 => Hrand 18 65 s0 eq_refl) 100 (seeded 42)) as Hages.
  destruct (draws 100 (randint1 18 65) (seeded 42)) as [ages s1].
  name_draws. cbn [fst] in *.
  apply (clip_score_ages (fun a => 18 <= a < 65)).
  now apply (user_frame_ages (fun a => 18 <= a < 65)).
Qed.

(** C3. Two invocations of [generate_sales_data] give the same table,
    record by record and field by field, whatever state the global
    generator was left in before each of them; so do two invocations of
    [generate_user_data].  Each reseeds with 42 before its first draw, so
    the table and the state left behind are functions of the fixed seed
    and the fixed parameters only. *)
Theorem generation_is_deterministic (s1 s2 : rng) :
  gen_sales s1 = gen_sales s2 /\ gen_users s1 = gen_users s2.
Proof.
  split; open_generator; reflexivity.
Qed.

(** C4. Every generated sales amount is at least 0, every generated score
    lies in [[0, 100]], and, [randint] drawing inside its bounds, every
    generated age lies in [[18, 65)]. *)
Theorem generated_fields_in_bounds (s s' : rng) :
  randint_in_range rng randint1 ->
  Forall (fun r => (0 <= sales r)%Q) (fst (gen_sales s))
  /\ Forall (fun u => (0 <= score u <= 100)%Q /\ 18 <= age u < 65)
            (fst (gen_users s')).
Proof.
  intros Hrand. split.
  - apply generated_sales_nonneg.
  - pose proof (generated_scores_clipped s') as Hs.
    pose proof (generated_ages_in_range s' Hrand) as Ha.
    rewrite Forall_forall in *. intros u Hu. split; auto.
Qed.

End GeneratorFacts.

(* ===================================================================== *)
(** ** The filter block *)
(* ===================================================================== *)

Lemma mask_and_map {A} (f g : A -> bool) (l : list A) :
  mask_and (map f l) (map g l) = map (fun x => f x && g x) l.
Proof.
  induction l as [|x l IH]; simpl; [reflexivity|]. now rewrite IH.
Qed.

Lemma select_map {A} (f : A -> bool) (l : list A) :
  select l (map f l) = filter f l.
Proof.
  induction l as [|x l IH]; simpl; [reflexivity|].
  rewrite IH. reflexivity.
Qed.

Lemma filter_filter {A} (f g : A -> bool) (l : list A) :
  filter g (filter f l) = filter (fun x => f x && g x) l.
Proof.
  induction l as [|x l IH]; simpl; [reflexivity|].
  destruct (f x); simpl; rewrite IH; reflexivity.
Qed.

Lemma filter_keeps_all {A} (f : A -> bool) (l : list A) :
  (forall x, In x l -> f x = true) -> filter f l = l.
Proof.
  induction l as [|x l IH]; intros H; simpl; [reflexivity|].
  rewrite (H x (or_introl eq_refl)). f_equal.
  apply IH. intros y Hy. apply H. now right.
Qed.

(** The two mask selections of the filter block keep exactly the rows that
    pass [keeps], in the table's order. *)
Lemma apply_filters_filter (sales_df : list SalesRecord)
    (cats regs : list string) (dr : date_input_value) :
  apply_filters sales_df cats regs dr = filter (keeps cats regs dr) sales_df.
Proof.
  unfold apply_filters, isin. rewrite !map_map, mask_and_map, select_map.
  set (in_sel := fun r : SalesRecord =>
                   existsb (String.eqb (category r)) cats
                   && existsb (String.eqb (region r)) regs).
  destruct dr as [d | [| d0 [| d1 [| d2 ds]]]];
    try (unfold keeps, date_pred; apply filter_ext; intros r; subst in_sel;
         cbv beta; now rewrite andb_true_r).
  rewrite !map_map, mask_and_map, select_map, filter_filter.
  apply filter_ext. intros r. reflexivity.
Qed.

Lemma existsb_eqb_In (x : string) (l : list string) :
  existsb (String.eqb x) l = true <-> In x l.
Proof.
  rewrite existsb_exists. split.
  - intros [y [Hy Heq]]. apply String.eqb_eq in Heq. now subst.
  - intros Hin. exists x. split; [assumption | apply String.eqb_refl].
Qed.

Lemma unique_In (col : list string) (x : string) :
  In x (unique col) <-> In x col.
Proof.
  induction col as [|y col IH]; simpl; [tauto|].
  rewrite filter_In, IH. split.
  - intros [-> | [H _]]; auto.
  - intros [-> | H]; [now left|].
    destruct (String.eqb_spec y x) as [-> | Hne]; [now left|].
    right. split; [assumption | reflexivity].
Qed.

Lemma fold_min_le (col : list date) :
  forall d, fold_left Z.min col d <= d
            /\ forall x, In x col -> fold_left Z.min col d <= x.
Proof.
  induction col as [|y col IH]; intros d; simpl.
  - split; [lia | contradiction].
  - destruct (IH (Z.min d y)) as [H1 H2]. split; [lia|].
    intros x [<- | Hx]; [lia | auto].
Qed.

Lemma fold_max_ge (col : list date) :
  forall d, d <= fold_left Z.max col d
            /\ forall x, In x col -> x <= fold_left Z.max col d.
Proof.
  induction col as [|y col IH]; intros d; simpl.
  - split; [lia | contradiction].
  - destruct (IH (Z.max d y)) as [H1 H2]. split; [lia|].
    intros x [<- | Hx]; [lia | auto].
Qed.

(** On any table with at least one row, the widgets' defaults select the
    whole table. *)
Lemma defaults_select_everything (sales_df : list SalesRecord)
    (dr : date_input_value) :
  default_date_range sales_df = Some dr ->
  apply_filters sales_df (default_categories sales_df)
    (default_regions sales_df) dr = sales_df.
Proof.
  intros Hdr. rewrite apply_filters_filter. apply filter_keeps_all.
  intros r Hr. unfold keeps.
  assert (Hc : existsb (String.eqb (category r)) (default_categories sales_df) = true).
  { apply existsb_eqb_In, unique_In, in_map, Hr. }
  assert (Hg : existsb (String.eqb (region r)) (default_regions sales_df) = true).
  { apply existsb_eqb_In, unique_In, in_map, Hr. }
  rewrite Hc, Hg. simpl.
  unfold default_date_range in Hdr.
  pose proof (in_map date_of _ _ Hr) as Hd.
  destruct (map date_of sales_df) as [|d col]; simpl in Hdr; [discriminate|].
  injection Hdr as <-. simpl.
  destruct (fold_min_le col d) as [Hm1 Hm2].
  destruct (fold_max_ge col d) as [HM1 HM2].
  destruct Hd as [<- | Hd].
  - apply andb_true_iff; split; apply Z.leb_le; assumption.
  - apply andb_true_iff; split; apply Z.leb_le; auto.
Qed.

(* ===================================================================== *)
(** ** The metrics block *)
(* ===================================================================== *)

Lemma fold_plus_acc (col : list Q) :
  forall a, (fold_left Qplus col a == a + series_sum col)%Q.
Proof.
  unfold series_sum.
  induction col as [|x col IH]; intros a; simpl.
  - ring.
  - rewrite (IH (a + x)%Q), (IH (0 + x)%Q). ring.
Qed.

Lemma series_sum_cons (x : Q) (col : list Q) :
  (series_sum (x :: col) == x + series_sum col)%Q.
Proof.
  unfold series_sum at 1. simpl. rewrite fold_plus_acc. ring.
Qed.

Lemma series_sum_nonneg (col : list Q) :
  Forall (fun x => (0 <= x)%Q) col -> (0 <= series_sum col)%Q.
Proof.
  induction 1 as [|x col Hx Hcol IH].
  - discriminate.
  - rewrite series_sum_cons.
    change 0%Q with (0 + 0)%Q. now apply Qplus_le_compat.
Qed.

(** Dropping rows from a table of non-negative amounts cannot raise the
    total. *)
Lemma filtered_sum_le (f : SalesRecord -> bool) (df : list SalesRecord) :
  Forall (fun r => (0 <= sales r)%Q) df ->
  (series_sum (map sales (filter f df)) <= series_sum (map sales df))%Q.
Proof.
  induction 1 as [|r df Hr Hdf IH]; simpl.
  - apply Qle_refl.
  - rewrite (series_sum_cons (sales r) (map sales df)).
    destruct (f r); simpl.
    + rewrite series_sum_cons. now apply Qplus_le_compat; [apply Qle_refl|].
    + apply Qle_trans with (1 := IH).
      rewrite <- (Qplus_0_l (series_sum (map sales df))) at 1.
      apply Qplus_le_compat; [assumption | apply Qle_refl].
Qed.

Lemma filter_none {A} (f : A -> bool) (l : list A) :
  (forall x, In x l -> f x = false) -> filter f l = [].
Proof.
  induction l as [|x l IH]; intros H; simpl; [reflexivity|].
  rewrite (H x (or_introl eq_refl)). apply IH.
  intros y Hy. apply H. now right.
Qed.

Lemma lcg_randint_in_range : randint_in_range Lcg.rng Lcg.randint1.
Proof.
  intros low high s Hlt. unfold Lcg.randint1. cbn [fst].
  pose proof (Z.mod_pos_bound s (high - low)). lia.
Qed.

(* ===================================================================== *)
(** ** The claims about the dashboard *)
(* ===================================================================== *)

(** C1, where the claim fails.  With no category selected the filter block
    keeps no row, while reading the empty selection as "all categories"
    keeps the two rows of the selected regions. *)
Lemma empty_selection_is_not_select_all :
  apply_filters small_df [] ["North"]
    (DateTuple [ymd2ord 2024 1 1; ymd2ord 2024 12 31]) = []
  /\ List.length (spec_filter small_df [] ["North"]
                    (ymd2ord 2024 1 1) (ymd2ord 2024 12 31)) = 2%nat
  /\ apply_filters small_df [] ["North"]
       (DateTuple [ymd2ord 2024 1 1; ymd2ord 2024 12 31])
     <> spec_filter small_df [] ["North"]
          (ymd2ord 2024 1 1) (ymd2ord 2024 12 31).
Proof.
  repeat split; try reflexivity.
  vm_compute. discriminate.
Qed.

(** C1, amended.  For every category selection, region selection and date
    input, the filtered subset is the table's rows, in order, whose
    category is among the selected categories, whose region is among the
    selected regions and, when the date input is a pair of dates, whose
    date lies in that inclusive interval; a date input that is not a pair
    excludes no row.  An empty category selection, or an empty region
    selection, leaves no row at all. *)
Theorem filters_are_the_conjunction (sales_df : list SalesRecord)
    (cats regs : list string) (dr : date_input_value) :
  apply_filters sales_df cats regs dr = filter (keeps cats regs dr) sales_df
  /\ (forall r, In r (apply_filters sales_df cats regs dr) <->
        In r sales_df /\ In (category r) cats /\ In (region r) regs
        /\ match dr with
           | DateTuple [d0; d1] => d0 <= date_of r <= d1
           | _ => True
           end)
  /\ apply_filters sales_df [] regs dr = []
  /\ apply_filters sales_df cats [] dr = [].
Proof.
  split; [apply apply_filters_filter|]. split; [|split].
  - intros r. rewrite apply_filters_filter, filter_In. unfold keeps.
    rewrite !andb_true_iff, !existsb_eqb_In.
    assert (Hd : date_pred dr (date_of r) = true <->
                 match dr with
                 | DateTuple [d0; d1] => d0 <= date_of r <= d1
                 | _ => True
                 end).
    { destruct dr as [d | [| d0 [| d1 [| d2 ds]]]]; simpl; try tauto.
      rewrite andb_true_iff, !Z.leb_le. tauto. }
    rewrite Hd. tauto.
  - rewrite apply_filters_filter. apply filter_none. reflexivity.
  - rewrite apply_filters_filter. apply filter_none.
    intros r _. unfold keeps. simpl. now rewrite andb_false_r.
Qed.

(** C2, where the claim fails.  A category present in the data with a
    region no row has: the subset is empty, the sum and the count are 0,
    and the mean handed to the "Avg Order Value" cell is not a number, so
    it is not 0; the block computes nothing else about the subset that
    could flag it. *)
Lemma empty_subset_mean_is_not_zero :
  apply_filters small_df ["Electronics"] ["South"]
    (DateTuple [ymd2ord 2024 1 1; ymd2ord 2024 12 31]) = []
  /\ forall q,
       avg_order_value
         (dashboard_metrics small_df
            (apply_filters small_df ["Electronics"] ["South"]
               (DateTuple [ymd2ord 2024 1 1; ymd2ord 2024 12 31])))
       <> Num q.
Proof.
  split; [reflexivity|]. intros q. vm_compute. discriminate.
Qed.

(** C2, amended.  For every filter combination whose filtered subset is
    empty, the metrics block yields values without raising: the sum of
    sales is 0, the order count is 0, the total quantity is 0, and the mean
    is not-a-number (neither 0 nor a separate no-data flag). *)
Theorem empty_subset_metrics (sales_df : list SalesRecord)
    (cats regs : list string) (dr : date_input_value) :
  apply_filters sales_df cats regs dr = [] ->
  total_sales (dashboard_metrics sales_df (apply_filters sales_df cats regs dr))
  = 0%Q
  /\ total_orders
       (dashboard_metrics sales_df (apply_filters sales_df cats regs dr))
     = 0%nat
  /\ total_quantity
       (dashboard_metrics sales_df (apply_filters sales_df cats regs dr))
     = 0
  /\ avg_order_value
       (dashboard_metrics sales_df (apply_filters sales_df cats regs dr))
     = NaN.
Proof.
  intros ->. repeat split.
Qed.

Lemma empty_subset_metrics_witness :
  apply_filters small_df ["Electronics"] ["South"] (DateTuple []) = []
  /\ avg_order_value
       (dashboard_metrics small_df
          (apply_filters small_df ["Electronics"] ["South"] (DateTuple [])))
     = NaN.
Proof.
  split; [reflexivity|].
  apply (empty_subset_metrics small_df ["Electronics"] ["South"] (DateTuple [])).
  reflexivity.
Defined.

Section DashboardOnGeneratedData.

Variable rng : Type.
Variable seeded : Z -> rng.
Variable normal1 : Q -> Q -> Rand rng Q.
Variable randint1 : Z -> Z -> Rand rng Z.
Variable choice1 : nat -> Rand rng nat.

Local Abbreviation gen_sales :=
  (generate_sales_data rng seeded normal1 randint1 choice1).

(** The date widget's default on the generated table is the whole of
    2024. *)
Lemma generated_default_date_range (s : rng) :
  default_date_range (fst (gen_sales s))
  = Some (DateTuple [ymd2ord 2024 1 1; ymd2ord 2024 12 31]).
Proof.
  unfold default_date_range. rewrite generated_sales_dates. reflexivity.
Qed.

(** C5. On the generated sales table, when the category selection holds
    every category of the table, the region selection holds every region
    of the table, and the date interval reaches from 2024-01-01 (or
    before) to 2024-12-31 (or after), the filtered subset is the table
    itself. *)
Theorem full_selection_is_identity (s : rng) (cats regs : list string)
    (d0 d1 : date) :
  incl (default_categories (fst (gen_sales s))) cats ->
  incl (default_regions (fst (gen_sales s))) regs ->
  d0 <= ymd2ord 2024 1 1 ->
  ymd2ord 2024 12 31 <= d1 ->
  apply_filters (fst (gen_sales s)) cats regs (DateTuple [d0; d1])
  = fst (gen_sales s).
Proof.
  intros Hc Hr H0 H1. rewrite apply_filters_filter. apply filter_keeps_all.
  intros r Hin. unfold keeps, date_pred.
  assert (Ec : existsb (String.eqb (category r)) cats = true).
  { apply existsb_eqb_In, Hc, unique_In, in_map, Hin. }
  assert (Er : existsb (String.eqb (region r)) regs = true).
  { apply existsb_eqb_In, Hr, unique_In, in_map, Hin. }
  rewrite Ec, Er. cbn [andb].
  pose proof (in_map date_of _ _ Hin) as Hd.
  rewrite generated_sales_dates in Hd. unfold date_range in Hd.
  apply count_from_bounds in Hd.
  change (ymd2ord 2024 1 1) with 738886 in *.
  change (ymd2ord 2024 12 31) with 739251 in *.
  apply andb_true_iff; split; apply Z.leb_le; lia.
Qed.

(** C10. For every filter combination, the sum of sales over the filtered
    subset is at most the sum over the whole generated table: the delta
    shown under "Total Sales" is never positive. *)
Theorem filtered_total_at_most_total (s : rng) (cats regs : list string)
    (dr : date_input_value) :
  (series_sum (map sales (apply_filters (fst (gen_sales s)) cats regs dr))
   <= series_sum (map sales (fst (gen_sales s))))%Q
  /\ (total_sales_delta
        (dashboard_metrics (fst (gen_sales s))
           (apply_filters (fst (gen_sales s)) cats regs dr)) <= 0)%Q.
Proof.
  assert (Hle : (series_sum (map sales (apply_filters (fst (gen_sales s))
                                          cats regs dr))
                 <= series_sum (map sales (fst (gen_sales s))))%Q).
  { rewrite apply_filters_filter. apply filtered_sum_le.
    apply generated_sales_nonneg. }
  split; [exact Hle|].
  unfold dashboard_metrics, total_sales_delta. lra.
Qed.

End DashboardOnGeneratedData.

Lemma generated_fields_in_bounds_witness :
  randint_in_range Lcg.rng Lcg.randint1
  /\ Forall (fun r => (0 <= sales r)%Q) Lcg.sales_df
  /\ Forall (fun u => (0 <= score u <= 100)%Q /\ 18 <= age u < 65)
            Lcg.users_df.
Proof.
  split; [exact lcg_randint_in_range|].
  apply (generated_fields_in_bounds Lcg.rng Lcg.seeded Lcg.normal1
           Lcg.randint1 Lcg.choice1 Lcg.choice_p1 0 0).
  exact lcg_randint_in_range.
Defined.

Lemma full_selection_is_identity_witness :
  apply_filters Lcg.sales_df
    ["Electronics"; "Clothing"; "Food"; "Books"]
    ["North"; "South"; "East"; "West"]
    (DateTuple [ymd2ord 2024 1 1; ymd2ord 2024 12 31])
  = Lcg.sales_df.
Proof.
  apply (full_selection_is_identity Lcg.rng Lcg.seeded Lcg.normal1
           Lcg.randint1 Lcg.choice1 0).
  - intros c Hc. vm_compute in Hc. simpl. tauto.
  - intros c Hc. vm_compute in Hc. simpl. tauto.
  - vm_compute. discriminate.
  - vm_compute. discriminate.
Defined.

(* ===================================================================== *)
(** ** The claims about the sample API *)
(* ===================================================================== *)

Import API.

Example get_item_negative_skip :
  route_get_item "abc" (Some (-1)) None = UnprocessableEntity ["skip"].
Proof. reflexivity. Qed.

Example get_item_defaults :
  route_get_item "abc" None None
  = OK (JObj [("item_id", JStr "abc"); ("skip", JInt 0); ("limit", JInt 10);
              ("message", JStr "GET request processed successfully")]).
Proof. reflexivity. Qed.

(** C6. A [get_item] request whose [skip] is below 0, or whose [limit] is
    below 1 or above 100, is answered with the validation failure and no
    handler output; a request whose given [skip] is at least 0 and whose
    given [limit] lies in [[1, 100]] is answered with [item_id], [skip] and
    [limit] as received and the fixed message, an omitted [skip] being 0
    and an omitted [limit] being 10. *)
Theorem get_item_validation (item_id : string) (skip limit : option Z) :
  ((exists v, skip = Some v /\ v < 0)
   \/ (exists v, limit = Some v /\ (v < 1 \/ 100 < v)) ->
   exists locs, route_get_item item_id skip limit = UnprocessableEntity locs)
  /\ ((forall v, skip = Some v -> 0 <= v) ->
      (forall v, limit = Some v -> 1 <= v <= 100) ->
      route_get_item item_id skip limit
      = OK (JObj [("item_id", JStr item_id);
                  ("skip", JInt (match skip with Some v => v | None => 0 end));
                  ("limit", JInt (match limit with Some v => v | None => 10 end));
                  ("message", JStr "GET request processed successfully")])).
Proof.
  unfold route_get_item, validate_query, skip_param, limit_param, bound_ok.
  cbn [q_default q_ge q_le]. split.
  - intros [[v [-> Hv]] | [v [-> Hv]]].
    + rewrite Z.geb_leb. destruct (Z.leb_spec 0 v) as [Hge|_]; [lia|].
      cbn [andb]. destruct limit as [l|]; [|eauto].
      destruct ((l >=? 1) && (l <=? 100)); eauto.
    + assert (E : (v >=? 1) && (v <=? 100) = false).
      { rewrite Z.geb_leb. apply andb_false_iff. rewrite !Z.leb_gt. lia. }
      rewrite E. destruct skip as [s|]; [|eauto].
      destruct ((s >=? 0) && true); eauto.
  - intros Hs Hl.
    assert (Es : forall s, skip = Some s -> (s >=? 0) && true = true).
    { intros s E. rewrite Z.geb_leb, andb_true_r. apply Z.leb_le. auto. }
    assert (El : forall l, limit = Some l -> (l >=? 1) && (l <=? 100) = true).
    { intros l E. rewrite Z.geb_leb. apply andb_true_iff.
      rewrite !Z.leb_le. apply Hl in E. lia. }
    destruct skip as [s|], limit as [l|];
      rewrite ?(Es _ eq_refl), ?(El _ eq_refl); reflexivity.
Qed.

Lemma get_item_validation_witness :
  (exists locs, route_get_item "abc" (Some (-1)) None = UnprocessableEntity locs)
  /\ route_get_item "abc" (Some 5) None
     = OK (JObj [("item_id", JStr "abc"); ("skip", JInt 5); ("limit", JInt 10);
                 ("message", JStr "GET request processed successfully")]).
Proof.
  split.
  - apply (proj1 (get_item_validation "abc" (Some (-1)) None)).
    left. exists (-1). split; [reflexivity | lia].
  - apply (proj2 (get_item_validation "abc" (Some 5) None)).
    + intros v Hv. injection Hv as <-. lia.
    + intros v Hv. discriminate Hv.
Defined.

(** C7. A [create_item] body without [name] is a validation failure; a
    body with a [name], with or without a [description], is answered with
    exactly the identifier ["new_item"], that name, that description (null
    when there is none) and the message "POST request processed
    successfully". *)
Theorem create_item_contract (n : string) (d : option string) :
  (exists locs,
      route_create_item (mkItemBody None d) = UnprocessableEntity locs)
  /\ route_create_item (mkItemBody (Some n) d)
     = OK (JObj [("item_id", JStr "new_item");
                 ("name", JStr n);
                 ("description", match d with Some s => JStr s | None => JNull end);
                 ("message", JStr "POST request processed successfully")])
  /\ route_create_item (mkItemBody (Some "Widget") None)
     = OK (JObj [("item_id", JStr "new_item");
                 ("name", JStr "Widget");
                 ("description", JNull);
                 ("message", JStr "POST request processed successfully")]).
Proof.
  split; [|split].
  - unfold route_create_item, parse_Item. cbn [body_name]. eauto.
  - destruct d; reflexivity.
  - reflexivity.
Qed.

(** C8. An [update_item] request with path identifier [item_id] and a body
    with a [name], with or without a [description], is answered with that
    [item_id], that name, that description and the message "PUT request
    processed successfully"; so is [PUT /items/123] with name "X" and
    description "Y". *)
Theorem update_item_contract (item_id n : string) (d : option string) :
  route_update_item item_id (mkItemBody (Some n) d)
  = OK (JObj [("item_id", JStr item_id);
              ("name", JStr n);
              ("description", match d with Some s => JStr s | None => JNull end);
              ("message", JStr "PUT request processed successfully")])
  /\ route_update_item "123" (mkItemBody (Some "X") (Some "Y"))
     = OK (JObj [("item_id", JStr "123");
                 ("name", JStr "X");
                 ("description", JStr "Y");
                 ("message", JStr "PUT request processed successfully")]).
Proof.
  split; [destruct d|]; reflexivity.
Qed.

(** C9. Whatever headers and body a request to [/health] carries, the
    answer is the 200 whose body is exactly [{"status": "healthy"}]. *)
Theorem health_is_constant (req : Request) :
  route_health req = OK (JObj [("status", JStr "healthy")]).
Proof. reflexivity. Qed.

(* ===================================================================== *)
(** ** More on the generated tables *)
(* ===================================================================== *)

Lemma count_from_nth (n : nat) :
  forall start i, (i < n)%nat ->
    nth_error (count_from start n) i = Some (start + Z.of_nat i).
Proof.
  induction n as [|n IH]; intros start i Hi; [lia|].
  destruct i as [|i]; simpl.
  - f_equal. lia.
  - rewrite IH by lia. f_equal. lia.
Qed.

Lemma sales_frame_length (dates : list date) :
  forall sl qs cs rs,
    List.length sl = List.length dates ->
    List.length qs = List.length dates ->
    List.length cs = List.length dates ->
    List.length rs = List.length dates ->
    List.length (sales_frame dates sl qs cs rs) = List.length dates.
Proof.
  intros sl qs cs rs Hs Hq Hc Hr.
  rewrite <- (sales_frame_dates dates sl qs cs rs Hs Hq Hc Hr) at 2.
  now rewrite length_map.
Qed.

Lemma sales_frame_columns (Pq : Z -> Prop) (Pc Pr : string -> Prop)
    (dates : list date) :
  forall sl qs cs rs,
    Forall Pq qs -> Forall Pc cs -> Forall Pr rs ->
    Forall (fun r => Pq (quantity r) /\ Pc (category r) /\ Pr (region r))
           (sales_frame dates sl qs cs rs).
Proof.
  induction dates as [|d dates IH]; intros sl qs cs rs Hq Hc Hr.
  - constructor.
  - destruct sl, qs, cs, rs; simpl; try constructor.
    + inversion Hq; inversion Hc; inversion Hr; subst. simpl. auto.
    + inversion Hq; inversion Hc; inversion Hr; subst. now apply IH.
Qed.

Lemma abs_sales_columns (P : Z -> string -> string -> Prop)
    (df : list SalesRecord) :
  Forall (fun r => P (quantity r) (category r) (region r)) df ->
  Forall (fun r => P (quantity r) (category r) (region r)) (abs_sales df).
Proof.
  unfold abs_sales. rewrite !Forall_forall. intros H r Hin.
  apply in_map_iff in Hin. destruct Hin as [r0 [<- Hin0]]. simpl. auto.
Qed.

Lemma user_frame_ids (ids : list Z) :
  forall ages cities scores acts,
    List.length ages = List.length ids ->
    List.length cities = List.length ids ->
    List.length scores = List.length ids ->
    List.length acts = List.length ids ->
    let df := user_frame ids (map user_name ids) ages cities scores acts in
    map user_id df = ids
    /\ Forall (fun u => name u = user_name (user_id u)) df.
Proof.
  induction ids as [|i ids IH]; intros ages cities scores acts Ha Hc Hs Hb.
  - split; [reflexivity | constructor].
  - destruct ages, cities, scores, acts; simpl in *; try discriminate.
    destruct (IH ages cities scores acts) as [E F]; try congruence.
    split; [now rewrite E | constructor; [reflexivity | exact F]].
Qed.

Lemma user_frame_cities (P : string -> Prop) (cities : list string) :
  Forall P cities ->
  forall ids ns ages scores acts,
    Forall (fun u => P (city u)) (user_frame ids ns ages cities scores acts).
Proof.
  induction 1 as [|c cities Hc Hcs IH]; intros ids ns ages scores acts.
  - destruct ids, ns, ages; constructor.
  - destruct ids, ns, ages, scores, acts; simpl; try constructor; auto.
Qed.

Lemma clip_score_keeps (P : Z -> string -> Z -> string -> Prop)
    (df : list UserRecord) :
  Forall (fun u => P (user_id u) (name u) (age u) (city u)) df ->
  Forall (fun u => P (user_id u) (name u) (age u) (city u)) (clip_score df).
Proof.
  unfold clip_score. rewrite !Forall_forall. intros H u Hin.
  apply in_map_iff in Hin. destruct Hin as [u0 [<- Hin0]]. simpl. auto.
Qed.

Lemma clip_score_ids (df : list UserRecord) :
  map user_id (clip_score df) = map user_id df.
Proof. unfold clip_score. rewrite map_map. reflexivity. Qed.

(** The entries picked at positions inside the population belong to it. *)
Lemma picks_in_population {A} (dflt : A) (a : list A) (idx : list nat) :
  Forall (fun i => (i < List.length a)%nat) idx ->
  Forall (fun x => In x a) (map (fun i => nth i a dflt) idx).
Proof.
  intros H. apply Forall_forall. intros x Hx.
  apply in_map_iff in Hx. destruct Hx as [i [<- Hi]].
  rewrite Forall_forall in H. apply nth_In. auto.
Qed.

Lemma lcg_choice_in_range : choice_in_range Lcg.rng Lcg.choice1.
Proof.
  intros n s Hn. unfold Lcg.choice1. cbn [fst].
  pose proof (Z.mod_pos_bound s (Z.of_nat n)). lia.
Qed.

Section MoreGeneratorFacts.

Variable rng : Type.
Variable seeded : Z -> rng.
Variable normal1 : Q -> Q -> Rand rng Q.
Variable randint1 : Z -> Z -> Rand rng Z.
Variable choice1 : nat -> Rand rng nat.
Variable choice_p1 : list Q -> Rand rng nat.

Local Abbreviation gen_sales :=
  (generate_sales_data rng seeded normal1 randint1 choice1).
Local Abbreviation gen_users :=
  (generate_user_data rng seeded normal1 randint1 choice1 choice_p1).

Ltac open_generator :=
  cbv beta iota zeta delta
    [generate_sales_data generate_user_data bind ret
     np_random_seed np_random_normal np_random_randint np_random_choice
     np_random_choice_p].

(** X1. The sales table has one row for every day of 2024, in calendar order:
    366 rows, row [i] dated [i] days after 2024-01-01. *)
Theorem sales_table_one_row_per_day (s : rng) :
  List.length (fst (gen_sales s)) = 366%nat
  /\ forall i, (i < 366)%nat ->
       nth_error (map date_of (fst (gen_sales s))) i
       = Some (ymd2ord 2024 1 1 + Z.of_nat i).
Proof.
  pose proof (generated_sales_dates rng seeded normal1 randint1 choice1 s) as E.
  split.
  - rewrite <- (length_map date_of), E. reflexivity.
  - intros i Hi. rewrite E. unfold date_range.
    apply count_from_nth.
    change (Z.to_nat (ymd2ord 2024 12 31 - ymd2ord 2024 1 1 + 1)) with 366%nat.
    exact Hi.
Qed.

(** X2. With [randint] and [choice] drawing inside their bounds, every row of
    the sales table has a quantity in [[10, 100)], one of the four
    categories and one of the four regions. *)
Theorem sales_columns_in_domain (s : rng) :
  randint_in_range rng randint1 ->
  choice_in_range rng choice1 ->
  Forall (fun r => 10 <= quantity r < 100
                   /\ In (category r) ["Electronics"; "Clothing"; "Food"; "Books"]
                   /\ In (region r) ["North"; "South"; "East"; "West"])
         (fst (gen_sales s)).
Proof.
  intros Hrand Hchoice. open_generator.
  set (n := List.length (date_range (ymd2ord 2024 1 1) (ymd2ord 2024 12 31))).
  destruct (draws n (normal1 1000 200) (seeded 42)) as [sl s1].
  pose proof (draws_Forall (fun q => 10 <= q < 100) (randint1 10 100)
                (fun s0 => Hrand 10 100 s0 eq_refl) n s1) as Hq.
  destruct (draws n (randint1 10 100) s1) as [qs s2].
  change (List.length ["Electronics"; "Clothing"; "Food"; "Books"]) with 4%nat.
  change (List.length ["North"; "South"; "East"; "West"]) with 4%nat.
  assert (H4 : forall s0, (fst (choice1 4 s0) < 4)%nat)
    by (intros s0; apply Hchoice; lia).
  pose proof (draws_Forall (fun i => (i < 4)%nat) (choice1 4) H4 n s2) as Hc.
  destruct (draws n (choice1 4) s2) as [cs s3].
  pose proof (draws_Forall (fun i => (i < 4)%nat) (choice1 4) H4 n s3) as Hr.
  destruct (draws n (choice1 4) s3) as [rs s4].
  cbn [fst] in *.
  apply (abs_sales_columns
           (fun q c r => 10 <= q < 100
              /\ In c ["Electronics"; "Clothing"; "Food"; "Books"]
              /\ In r ["North"; "South"; "East"; "West"])).
  apply (sales_frame_columns (fun q => 10 <= q < 100)
           (fun c => In c ["Electronics"; "Clothing"; "Food"; "Books"])
           (fun r => In r ["North"; "South"; "East"; "West"])).
  - exact Hq.
  - apply picks_in_population. exact Hc.
  - apply picks_in_population. exact Hr.
Qed.

(** X3. The user table has 100 rows whose identifiers are 1, 2, ..., 100 in
    that order, so no two rows share one; each row is named "User "
    followed by its identifier in decimal. *)
Theorem users_table_identifiers (s : rng) :
  map user_id (fst (gen_users s)) = range 1 101
  /\ List.length (fst (gen_users s)) = 100%nat
  /\ NoDup (map user_id (fst (gen_users s)))
  /\ Forall (fun u => name u = user_name (user_id u)
                      /\ 1 <= user_id u <= 100)
            (fst (gen_users s)).
Proof.
  open_generator.
  pose proof (draws_length (randint1 18 65) 100 (seeded 42)) as L1.
  destruct (draws 100 (randint1 18 65) (seeded 42)) as [ages s1].
  change (List.length ["New York"; "Los Angeles"; "Chicago"; "Houston"; "Phoenix"])
    with 5%nat.
  pose proof (draws_length (choice1 5) 100 s1) as L2.
  destruct (draws 100 (choice1 5) s1) as [cs s2].
  pose proof (draws_length (normal1 75 15) 100 s2) as L3.
  destruct (draws 100 (normal1 75 15) s2) as [scores s3].
  pose proof (draws_length (choice_p1 [7 # 10; 3 # 10]) 100 s3) as L4.
  destruct (draws 100 (choice_p1 [7 # 10; 3 # 10]) s3) as [acts s4].
  cbn [fst] in *.
  assert (Hlen : List.length (range 1 101) = 100%nat) by reflexivity.
  destruct (user_frame_ids (range 1 101) ages
              (map (fun i => nth i ["New York"; "Los Angeles"; "Chicago";
                                    "Houston"; "Phoenix"] "") cs)
              scores (map (fun i => nth i [true; false] false) acts))
    as [Eids Hnames]; rewrite ?length_map; try congruence.
  assert (E : map user_id
                (clip_score
                   (user_frame (range 1 101) (map user_name (range 1 101)) ages
                      (map (fun i => nth i ["New York"; "Los Angeles"; "Chicago";
                                            "Houston"; "Phoenix"] "") cs)
                      scores (map (fun i => nth i [true; false] false) acts)))
              = range 1 101).
  { rewrite clip_score_ids. exact Eids. }
  split; [exact E|]. split; [|split].
  - rewrite <- (length_map user_id), E. reflexivity.
  - rewrite E. vm_compute.
    repeat (constructor; [simpl; intuition discriminate|]). constructor.
  - apply Forall_forall. intros u Hu. split.
    + revert u Hu. apply Forall_forall.
      apply (clip_score_keeps (fun i n _ _ => n = user_name i)). exact Hnames.
    + pose proof (in_map user_id _ _ Hu) as Hin. rewrite E in Hin.
      apply count_from_bounds in Hin. simpl in Hin. lia.
Qed.

(** X4. With [choice] drawing inside its bounds, every user's city is one of
    the five listed. *)
Theorem users_cities_in_domain (s : rng) :
  choice_in_range rng choice1 ->
  Forall (fun u => In (city u)
                     ["New York"; "Los Angeles"; "Chicago"; "Houston"; "Phoenix"])
         (fst (gen_users s)).
Proof.
  intros Hchoice. open_generator.
  destruct (draws 100 (randint1 18 65) (seeded 42)) as [ages s1].
  change (List.length ["New York"; "Los Angeles"; "Chicago"; "Houston"; "Phoenix"])
    with 5%nat.
  assert (H5 : forall s0, (fst (choice1 5 s0) < 5)%nat)
    by (intros s0; apply Hchoice; lia).
  pose proof (draws_Forall (fun i => (i < 5)%nat) (choice1 5) H5 100 s1) as Hc.
  destruct (draws 100 (choice1 5) s1) as [cs s2].
  destruct (draws 100 (normal1 75 15) s2) as [scores s3].
  destruct (draws 100 (choice_p1 [7 # 10; 3 # 10]) s3) as [acts s4].
  cbn [fst] in *.
  apply (clip_score_keeps
           (fun _ _ _ c => In c ["New York"; "Los Angeles"; "Chicago";
                                 "Houston"; "Phoenix"])).
  apply (user_frame_cities
           (fun c => In c ["New York"; "Los Angeles"; "Chicago";
                           "Houston"; "Phoenix"])).
  apply picks_in_population. exact Hc.
Qed.

End MoreGeneratorFacts.

Lemma sales_columns_in_domain_witness :
  Forall (fun r => 10 <= quantity r < 100
                   /\ In (category r) ["Electronics"; "Clothing"; "Food"; "Books"]
                   /\ In (region r) ["North"; "South"; "East"; "West"])
         Lcg.sales_df.
Proof.
  apply (sales_columns_in_domain Lcg.rng Lcg.seeded Lcg.normal1 Lcg.randint1
           Lcg.choice1 0).
  - exact lcg_randint_in_range.
  - exact lcg_choice_in_range.
Defined.

Lemma users_cities_in_domain_witness :
  Forall (fun u => In (city u)
                     ["New York"; "Los Angeles"; "Chicago"; "Houston"; "Phoenix"])
         Lcg.users_df.
Proof.
  apply (users_cities_in_domain Lcg.rng Lcg.seeded Lcg.normal1 Lcg.randint1
           Lcg.choice1 Lcg.choice_p1 0).
  exact lcg_choice_in_range.
Defined.

(* ===================================================================== *)
(** ** More on the filter and metrics blocks *)
(* ===================================================================== *)

(** X5. Filtering the filtered subset again with the same selections changes
    nothing. *)
Theorem apply_filters_idempotent (sales_df : list SalesRecord)
    (cats regs : list string) (dr : date_input_value) :
  apply_filters (apply_filters sales_df cats regs dr) cats regs dr
  = apply_filters sales_df cats regs dr.
Proof.
  rewrite !apply_filters_filter, filter_filter.
  apply filter_ext. intros r. apply andb_diag.
Qed.

(** X6. A date pair whose end is before its start selects no row. *)
Theorem reversed_interval_selects_nothing (sales_df : list SalesRecord)
    (cats regs : list string) (d0 d1 : date) :
  d1 < d0 ->
  apply_filters sales_df cats regs (DateTuple [d0; d1]) = [].
Proof.
  intros Hlt. rewrite apply_filters_filter. apply filter_none.
  intros r _. unfold keeps, date_pred.
  assert (E : (d0 <=? date_of r) && (date_of r <=? d1) = false).
  { apply andb_false_iff. rewrite !Z.leb_gt. lia. }
  rewrite E. apply andb_false_r.
Qed.

Lemma reversed_interval_selects_nothing_witness :
  apply_filters small_df ["Electronics"; "Food"] ["North"; "West"]
    (DateTuple [ymd2ord 2024 1 3; ymd2ord 2024 1 1]) = [].
Proof.
  apply reversed_interval_selects_nothing. vm_compute. reflexivity.
Defined.

(** X7. Selecting more categories, more regions and a wider date interval never
    loses a row: every row of the narrower subset is in the wider one, and
    the wider one has at least as many rows. *)
Theorem wider_selection_keeps_rows (sales_df : list SalesRecord)
    (cats cats' regs regs' : list string) (d0 d1 d0' d1' : date) :
  incl cats cats' -> incl regs regs' -> d0' <= d0 -> d1 <= d1' ->
  (forall r, In r (apply_filters sales_df cats regs (DateTuple [d0; d1])) ->
             In r (apply_filters sales_df cats' regs' (DateTuple [d0'; d1'])))
  /\ (List.length (apply_filters sales_df cats regs (DateTuple [d0; d1]))
      <= List.length (apply_filters sales_df cats' regs' (DateTuple [d0'; d1'])))%nat.
Proof.
  intros Hc Hr H0 H1.
  assert (Himp : forall r,
             keeps cats regs (DateTuple [d0; d1]) r = true ->
             keeps cats' regs' (DateTuple [d0'; d1']) r = true).
  { intros r. unfold keeps, date_pred.
    rewrite !andb_true_iff, !existsb_eqb_In, !Z.leb_le.
    intros [[Hcat Hreg] [Hlo Hhi]]. repeat split; auto; lia. }
  rewrite !apply_filters_filter. split.
  - intros r. rewrite !filter_In. intros [Hin Hk]. auto.
  - induction sales_df as [|r df IH]; simpl; [lia|].
    destruct (keeps cats regs (DateTuple [d0; d1]) r) eqn:E.
    + rewrite (Himp r E). simpl. lia.
    + destruct (keeps cats' regs' (DateTuple [d0'; d1']) r); simpl; lia.
Qed.

Lemma wider_selection_keeps_rows_witness :
  (List.length (apply_filters small_df ["Food"] ["North"]
                  (DateTuple [ymd2ord 2024 1 2; ymd2ord 2024 1 2]))
   <= List.length (apply_filters small_df ["Food"; "Electronics"] ["North"; "West"]
                     (DateTuple [ymd2ord 2024 1 1; ymd2ord 2024 1 3])))%nat.
Proof.
  apply (wider_selection_keeps_rows small_df ["Food"] ["Food"; "Electronics"]
           ["North"] ["North"; "West"]).
  - intros c Hc. simpl in *. tauto.
  - intros c Hc. simpl in *. tauto.
  - vm_compute. discriminate.
  - vm_compute. discriminate.
Defined.



(* ===================================================================== *)
(** ** The grouped aggregates behind the charts *)
(* ===================================================================== *)




Lemma series_sum_int_acc (col : list Z) :
  forall a, fold_left Z.add col a = a + series_sum_int col.
Proof.
  unfold series_sum_int.
  induction col as [|x col IH]; intros a; simpl; [lia|].
  rewrite (IH (a + x)), (IH x). lia.
Qed.

Lemma series_sum_int_cons (x : Z) (col : list Z) :
  series_sum_int (x :: col) = x + series_sum_int col.
Proof. unfold series_sum_int at 1. simpl. apply series_sum_int_acc. Qed.

Lemma insert_key_perm {K} (leb : K -> K -> bool) (k : K) (l : list K) :
  Permutation (insert_key leb k l) (k :: l).
Proof.
  induction l as [|x l IH]; simpl; [reflexivity|].
  destruct (leb k x); [reflexivity|].
  rewrite IH. apply perm_swap.
Qed.

Lemma sort_keys_perm {K} (leb : K -> K -> bool) (l : list K) :
  Permutation (sort_keys leb l) l.
Proof.
  induction l as [|x l IH]; simpl; [reflexivity|].
  rewrite insert_key_perm. now constructor.
Qed.

(** With a total comparison, inserting keeps the keys in order. *)
Lemma insert_key_sorted {K} (leb : K -> K -> bool) :
  (forall x y, leb x y = true \/ leb y x = true) ->
  forall k l, Sorted (fun x y => leb x y = true) l ->
              Sorted (fun x y => leb x y = true) (insert_key leb k l).
Proof.
  intros Htotal k l Hl. induction Hl as [|x l Hl IH Hhd]; simpl.
  - repeat constructor.
  - destruct (leb k x) eqn:E.
    + constructor; [now constructor | now constructor].
    + constructor; [exact IH|].
      destruct l as [|y l]; simpl.
      * constructor. destruct (Htotal k x); congruence.
      * destruct (leb k y).
        -- constructor. destruct (Htotal k x); congruence.
        -- constructor. now inversion Hhd.
Qed.

Lemma sort_keys_sorted {K} (leb : K -> K -> bool) :
  (forall x y, leb x y = true \/ leb y x = true) ->
  forall l, Sorted (fun x y => leb x y = true) (sort_keys leb l).
Proof.
  intros Htotal l. induction l as [|x l IH]; simpl; [constructor|].
  now apply insert_key_sorted.
Qed.

Section GroupBy.

Context {K : Type}.
Variable eqb : K -> K -> bool.
Variable leb : K -> K -> bool.
Variable key : SalesRecord -> K.
Hypothesis eqb_eq : forall x y, eqb x y = true <-> x = y.

Lemma distinct_In (col : list K) (x : K) :
  In x (distinct eqb col) <-> In x col.
Proof.
  clear leb key.
  induction col as [|y col IH]; simpl; [tauto|].
  rewrite filter_In, IH. split.
  - intros [-> | [H _]]; auto.
  - intros [-> | H]; [now left|].
    destruct (eqb y x) eqn:E; [apply eqb_eq in E; now left|].
    right. split; [assumption | reflexivity].
Qed.

Lemma distinct_NoDup (col : list K) : NoDup (distinct eqb col).
Proof.
  induction col as [|y col IH]; simpl; constructor.
  - rewrite filter_In. intros [_ H].
    assert (E : eqb y y = true) by now apply eqb_eq.
    rewrite E in H. discriminate.
  - now apply NoDup_filter.
Qed.

Lemma group_keys_perm (df : list SalesRecord) :
  Permutation (sort_keys leb (distinct eqb (map key df)))
              (distinct eqb (map key df)).
Proof. apply sort_keys_perm. Qed.



Lemma groupby_sales_keys (df : list SalesRecord) :
  map fst (groupby_sales eqb leb key df)
  = sort_keys leb (distinct eqb (map key df)).
Proof.
  unfold groupby_sales. rewrite map_map. simpl. apply map_id.
Qed.


Lemma groupby_sales_one_row_per_key (df : list SalesRecord) :
  NoDup (map fst (groupby_sales eqb leb key df))
  /\ forall k, In k (map fst (groupby_sales eqb leb key df))
               <-> exists r, In r df /\ key r = k.
Proof.
  rewrite groupby_sales_keys. split.
  - apply (Permutation_NoDup (Permutation_sym (group_keys_perm df))).
    apply distinct_NoDup.
  - intros k. split.
    + intros Hk. apply (Permutation_in _ (group_keys_perm df)) in Hk.
      apply distinct_In, in_map_iff in Hk.
      destruct Hk as [r [E Hr]]. eauto.
    + intros [r [Hr <-]].
      apply (Permutation_in _ (Permutation_sym (group_keys_perm df))).
      apply distinct_In, in_map, Hr.
Qed.

End GroupBy.

Section GroupByInt.

Context {K : Type}.
Variable eqb : K -> K -> bool.
Variable key : SalesRecord -> K.
Hypothesis eqb_eq : forall x y, eqb x y = true <-> x = y.





End GroupByInt.


Lemma regional_data_sales (df : list SalesRecord) :
  map (fun row => (fst (fst row), snd (fst row))) (regional_data df)
  = groupby_sales String.eqb String.leb region df.
Proof.
  unfold regional_data, groupby_sales. rewrite map_map. reflexivity.
Qed.

Lemma Zleb_total (x y : Z) : (x <=? y) = true \/ (y <=? x) = true.
Proof. rewrite !Z.leb_le. lia. Qed.


(** X10. Every chart has exactly one row per group present in the subset (none
    for an empty subset), and the rows come in ascending order of their
    key. *)
Theorem one_row_per_group_in_order (df : list SalesRecord) :
  (NoDup (map fst (daily_sales df))
   /\ (forall d, In d (map fst (daily_sales df))
                 <-> exists r, In r df /\ date_of r = d)
   /\ Sorted Z.le (map fst (daily_sales df)))
  /\ (NoDup (map fst (category_sales df))
      /\ (forall c, In c (map fst (category_sales df))
                    <-> exists r, In r df /\ category r = c)
      /\ Sorted (fun a b => String.leb a b = true) (map fst (category_sales df)))
  /\ (NoDup (map (fun row => fst (fst row)) (regional_data df))
      /\ (forall g, In g (map (fun row => fst (fst row)) (regional_data df))
                    <-> exists r, In r df /\ region r = g)
      /\ Sorted (fun a b => String.leb a b = true)
                (map (fun row => fst (fst row)) (regional_data df))).
Proof.
  split; [|split].
  - destruct (groupby_sales_one_row_per_key Z.eqb Z.leb date_of Z.eqb_eq df)
      as [Hnd Hin].
    repeat split; try exact Hnd; try apply Hin.
    unfold daily_sales. rewrite groupby_sales_keys.
    eapply Sorted_ind with (P := fun l => Sorted Z.le l);
      [constructor | | apply (sort_keys_sorted Z.leb Zleb_total)].
    intros a l _ IH Hhd. constructor; [exact IH|].
    destruct Hhd as [|b l Hab]; constructor. now apply Z.leb_le.
  - destruct (groupby_sales_one_row_per_key String.eqb String.leb category
                String.eqb_eq df) as [Hnd Hin].
    repeat split; try exact Hnd; try apply Hin.
    unfold category_sales. rewrite groupby_sales_keys.
    apply (sort_keys_sorted String.leb String.leb_total).
  - assert (E : map (fun row => fst (fst row)) (regional_data df)
                = map fst (groupby_sales String.eqb String.leb region df)).
    { rewrite <- regional_data_sales, map_map. reflexivity. }
    rewrite E.
    destruct (groupby_sales_one_row_per_key String.eqb String.leb region
                String.eqb_eq df) as [Hnd Hin].
    repeat split; try exact Hnd; try apply Hin.
    rewrite groupby_sales_keys.
    apply (sort_keys_sorted String.leb String.leb_total).
Qed.

Lemma count_from_NoDup (n : nat) : forall start, NoDup (count_from start n).
Proof.
  induction n as [|n IH]; intros start; simpl; constructor.
  - intros Hin. apply count_from_bounds in Hin. lia.
  - apply IH.
Qed.

Lemma sort_keys_count_from (n : nat) :
  forall start, sort_keys Z.leb (count_from start n) = count_from start n.
Proof.
  induction n as [|n IH]; intros start; [reflexivity|].
  cbn [count_from sort_keys fold_right].
  change (fold_right (insert_key Z.leb) [] (count_from (start + 1) n))
    with (sort_keys Z.leb (count_from (start + 1) n)).
  rewrite IH. destruct n as [|n]; [reflexivity|].
  cbn [count_from insert_key].
  assert (E : (start <=? start + 1) = true) by (apply Z.leb_le; lia).
  now rewrite E.
Qed.

Lemma distinct_NoDup_id {K} (eqb : K -> K -> bool) :
  (forall x y, eqb x y = true <-> x = y) ->
  forall col, NoDup col -> distinct eqb col = col.
Proof.
  intros eqb_eq col Hnd. induction Hnd as [|x col Hx Hnd IH]; [reflexivity|].
  simpl. rewrite IH. f_equal. apply filter_keeps_all.
  intros y Hy. destruct (eqb x y) eqn:E; [|reflexivity].
  apply eqb_eq in E. subst. contradiction.
Qed.

Lemma group_rows_single_day (df : list SalesRecord) :
  NoDup (map date_of df) ->
  forall r, In r df -> group_rows Z.eqb date_of (date_of r) df = [r].
Proof.
  induction df as [|a df IH]; intros Hnd r Hin; [contradiction|].
  simpl in Hnd. inversion Hnd as [|? ? Ha Hnd']; subst.
  unfold group_rows. cbn [filter].
  destruct Hin as [-> | Hin].
  - rewrite Z.eqb_refl. f_equal. apply filter_none.
    intros r' Hr'. apply Z.eqb_neq. intros E. apply Ha.
    rewrite <- E. now apply in_map.
  - assert (E : (date_of a =? date_of r) = false).
    { apply Z.eqb_neq. intros E. apply Ha. rewrite E. now apply in_map. }
    rewrite E. now apply IH.
Qed.

(** On a table with one row per day, rows in calendar order, the daily
    series is the table's own dates and amounts. *)
Lemma daily_sales_one_row_per_day (df : list SalesRecord) (start : date) (n : nat) :
  map date_of df = count_from start n ->
  daily_sales df = map (fun r => (date_of r, series_sum [sales r])) df.
Proof.
  intros E.
  assert (Hnd : NoDup (map date_of df)) by (rewrite E; apply count_from_NoDup).
  unfold daily_sales, groupby_sales. unfold date in *.
  rewrite (distinct_NoDup_id Z.eqb Z.eqb_eq _ Hnd).
  rewrite E, sort_keys_count_from, <- E, map_map.
  apply map_ext_in. intros r Hr.
  now rewrite (group_rows_single_day df Hnd r Hr).
Qed.

Section ChartsOnGeneratedData.

Variable rng : Type.
Variable seeded : Z -> rng.
Variable normal1 : Q -> Q -> Rand rng Q.
Variable randint1 : Z -> Z -> Rand rng Z.
Variable choice1 : nat -> Rand rng nat.

Local Abbreviation gen_sales :=
  (generate_sales_data rng seeded normal1 randint1 choice1).

(** X11. On the whole generated table the "Sales Over Time" series has one point
    per day of 2024, 366 points in calendar order, and each point's value
    is the sales amount of that day's row. *)
Theorem daily_sales_of_generated_table (s : rng) :
  List.length (daily_sales (fst (gen_sales s))) = 366%nat
  /\ map fst (daily_sales (fst (gen_sales s)))
     = date_range (ymd2ord 2024 1 1) (ymd2ord 2024 12 31)
  /\ Forall2 (fun point r => fst point = date_of r /\ (snd point == sales r)%Q)
             (daily_sales (fst (gen_sales s))) (fst (gen_sales s)).
Proof.
  pose proof (generated_sales_dates rng seeded normal1 randint1 choice1 s) as E.
  unfold date_range in E.
  rewrite (daily_sales_one_row_per_day _ _ _ E).
  split; [|split].
  - rewrite length_map, <- (length_map date_of), E. reflexivity.
  - rewrite map_map. cbn [fst]. exact E.
  - clear E. induction (fst (gen_sales s)) as [|r df IH]; constructor.
    + split; [reflexivity|]. cbn [snd]. unfold series_sum. simpl. ring.
    + exact IH.
Qed.

(** X12. On the generated table with well-behaved [randint], "Total Quantity"
    lies between 10 and 99 times "Total Orders", whatever the filters. *)
Theorem total_quantity_bounds (s : rng) (cats regs : list string)
    (dr : date_input_value) :
  randint_in_range rng randint1 ->
  let m := dashboard_metrics (fst (gen_sales s))
             (apply_filters (fst (gen_sales s)) cats regs dr) in
  10 * Z.of_nat (total_orders m) <= total_quantity m
  <= 99 * Z.of_nat (total_orders m).
Proof.
  intros Hrand. cbv zeta. unfold dashboard_metrics.
  cbn [total_orders total_quantity].
  rewrite apply_filters_filter.
  assert (Hq : Forall (fun r => 10 <= quantity r < 100) (fst (gen_sales s))).
  { cbv beta iota zeta delta
      [generate_sales_data bind ret np_random_seed np_random_normal
       np_random_randint np_random_choice].
    set (n := List.length (date_range (ymd2ord 2024 1 1) (ymd2ord 2024 12 31))).
    destruct (draws n (normal1 1000 200) (seeded 42)) as [sl s1].
    pose proof (draws_Forall (fun q => 10 <= q < 100) (randint1 10 100)
                  (fun s0 => Hrand 10 100 s0 eq_refl) n s1) as Hq.
    destruct (draws n (randint1 10 100) s1) as [qs s2].
    destruct (draws n (choice1 _) s2) as [cs s3].
    destruct (draws n (choice1 _) s3) as [rs s4].
    cbn [fst] in *.
    apply (abs_sales_columns (fun q _ _ => 10 <= q < 100)).
    match goal with
    | |- Forall _ (sales_frame ?dates _ _ ?cs' ?rs') =>
        pose proof (sales_frame_columns (fun q => 10 <= q < 100)
                      (fun _ => True) (fun _ => True) dates sl qs cs' rs' Hq
                      (proj2 (Forall_forall _ cs') (fun _ _ => I))
                      (proj2 (Forall_forall _ rs') (fun _ _ => I))) as H
    end.
    revert H. apply Forall_impl. tauto. }
  induction Hq as [|r df Hr Hdf IH]; cbn [filter].
  - unfold series_sum_int. cbn [map List.length fold_left]. lia.
  - destruct (keeps cats regs dr r); [|exact IH].
    cbn [map]. rewrite series_sum_int_cons.
    change (List.length (r :: filter (keeps cats regs dr) df))
      with (S (List.length (filter (keeps cats regs dr) df))).
    lia.
Qed.

End ChartsOnGeneratedData.

Lemma total_quantity_bounds_witness :
  10 * Z.of_nat (total_orders
                   (dashboard_metrics Lcg.sales_df
                      (apply_filters Lcg.sales_df ["Food"] ["North"; "East"]
                         (OneDate (ymd2ord 2024 3 1)))))
  <= total_quantity
       (dashboard_metrics Lcg.sales_df
          (apply_filters Lcg.sales_df ["Food"] ["North"; "East"]
             (OneDate (ymd2ord 2024 3 1))))
  <= 99 * Z.of_nat (total_orders
                      (dashboard_metrics Lcg.sales_df
                         (apply_filters Lcg.sales_df ["Food"] ["North"; "East"]
                            (OneDate (ymd2ord 2024 3 1))))).
Proof.
  apply (total_quantity_bounds Lcg.rng Lcg.seeded Lcg.normal1 Lcg.randint1
           Lcg.choice1 0 ["Food"] ["North"; "East"] (OneDate (ymd2ord 2024 3 1))).
  exact lcg_randint_in_range.
Defined.

(* ===================================================================== *)
(** ** The registration form *)
(* ===================================================================== *)

Import Forms.

Lemma prefix_empty (s : string) : String.prefix "" s = true.
Proof. destruct s; reflexivity. Qed.

Lemma contains_at_iff (s : string) :
  contains "@" s = true
  <-> exists pre post, s = String.append pre (String "@"%char post).
Proof.
  induction s as [|c s IH].
  - simpl. split; [discriminate|].
    intros [pre [post E]]. destruct pre; discriminate.
  - cbn [contains String.prefix].
    destruct (Ascii.ascii_dec "@" c) as [<- | Hne].
    + rewrite prefix_empty. split; [intros _ | reflexivity].
      exists "", s. reflexivity.
    + rewrite IH. split.
      * intros [pre [post ->]]. exists (String c pre), post. reflexivity.
      * intros [pre [post E]]. destruct pre as [|c' pre]; simpl in E.
        -- injection E as E1 E2. congruence.
        -- injection E as E1 E2. eauto.
Qed.

Lemma is_blank_iff (s : string) : is_blank s = true <-> s = "".
Proof. apply String.eqb_eq. Qed.

(** X13. The registration is accepted exactly when the first name and the last
    name are not empty and the email has an "@" somewhere; nothing else
    about the email is checked. *)
Theorem registration_accepted_iff (first_name last_name email : string) :
  submit_registration first_name last_name email = Registered
  <-> first_name <> "" /\ last_name <> ""
      /\ exists pre post, email = String.append pre (String "@"%char post).
Proof.
  rewrite <- contains_at_iff.
  unfold submit_registration, registration_errors.
  destruct (is_blank first_name) eqn:Ef, (is_blank last_name) eqn:El,
           (is_blank email) eqn:Ee, (contains "@" email) eqn:Ec;
    try apply is_blank_iff in Ef; try apply is_blank_iff in El;
    try apply is_blank_iff in Ee; subst; simpl;
    try (split; [discriminate | intros [H1 [H2 H3]]; congruence]).
  - discriminate Ec.
  - split; [intros _ | reflexivity].
    repeat split; intros E; subst; discriminate.
Qed.

(** X14. Which messages a rejected submission shows: the name message exactly
    when a name is empty, "Email is required" exactly when the email is
    empty, "Invalid email format" exactly when the email is not empty and
    has no "@"; so never both email messages, never more than two
    messages, and the name message comes first. *)
Theorem registration_messages (first_name last_name email : string) :
  let errors := registration_errors first_name last_name email in
  (In "First and last name are required" errors
   <-> first_name = "" \/ last_name = "")
  /\ (In "Email is required" errors <-> email = "")
  /\ (In "Invalid email format" errors
      <-> email <> "" /\ contains "@" email = false)
  /\ (List.length errors <= 2)%nat
  /\ (In "First and last name are required" errors ->
      hd_error errors = Some "First and last name are required").
Proof.
  cbv zeta. unfold registration_errors.
  pose proof (String.eqb_spec first_name "") as Hf.
  pose proof (String.eqb_spec last_name "") as Hl.
  pose proof (String.eqb_spec email "") as He.
  unfold is_blank.
  destruct Hf as [Hf|Hf], Hl as [Hl|Hl], He as [He|He],
           (contains "@" email) eqn:Ec;
    simpl;
    intuition (try discriminate; try congruence; try lia; auto).
Qed.

(* ===================================================================== *)
(** ** The cached computation *)
(* ===================================================================== *)

Lemma fold_add_count_from (k : nat) :
  forall start acc,
    2 * fold_left Z.add (count_from start k) acc
    = 2 * acc + 2 * Z.of_nat k * start + Z.of_nat k * (Z.of_nat k - 1).
Proof.
  induction k as [|k IH]; intros start acc.
  - simpl. lia.
  - cbn [count_from fold_left]. rewrite IH. nia.
Qed.

(** X15. [expensive_operation n] is [n (n - 1) / 2] for a positive [n], and 0
    for [n] at most 0. *)
Theorem expensive_operation_closed_form (n : Z) :
  expensive_operation n = Z.max 0 n * (Z.max 0 n - 1) / 2.
Proof.
  unfold expensive_operation, range.
  pose proof (fold_add_count_from (Z.to_nat (n - 0)) 0 0) as H.
  set (r := fold_left Z.add (count_from 0 (Z.to_nat (n - 0))) 0) in *.
  assert (E : Z.max 0 n * (Z.max 0 n - 1) = r * 2) by lia.
  rewrite E. symmetry. apply Z.div_mul. discriminate.
Qed.

(* ===================================================================== *)
(** ** The Session State page *)
(* ===================================================================== *)

Import SessionPage.

Lemma init_persist (s : Session) : init_session (persist s) = s.
Proof. destruct s; reflexivity. Qed.

(** A run without a click shows the session and leaves it as it is. *)
Lemma rerun_shows_session (s : Session) :
  script_run None (persist s)
  = (persist s,
     Some (mkView (counter s) (view_of_cart (cart_items s))
             (match user_data s with [] => None | _ :: _ => Some (user_data s) end))).
Proof.
  unfold script_run. rewrite init_persist. destruct s as [c cart data].
  unfold page_run. cbn [counter cart_items user_data]. reflexivity.
Qed.

(** One click, with the rerun it may cause, changes each key by the click's
    net effect. *)
Lemma interact_effect (ev : event) (st : Stored) :
  fst (interact ev st)
  = persist (mkSession
               (counter (init_session st) + counter_delta ev)
               (cart_after ev (cart_items (init_session st)))
               (user_data_after ev (user_data (init_session st)))).
Proof.
  unfold interact, script_run.
  destruct (init_session st) as [c cart data].
  destruct ev as [| | x | | i | n e t]; unfold page_run;
    cbn [counter cart_items user_data counter_delta cart_after user_data_after];
    try destruct (String.eqb x "");
    try destruct (i <? List.length cart)%nat;
    cbn [negb fst snd persist init_session counter cart_items user_data
         stored_counter stored_cart_items stored_user_data];
    unfold persist; cbn [counter cart_items user_data];
    f_equal; f_equal; lia.
Qed.

Lemma interact_view (ev : event) (st : Stored) :
  snd (interact ev st)
  = Some (mkView
            (match ev with
             | Increment => counter (init_session st)
             | _ => counter (init_session st) + counter_delta ev
             end)
            (view_of_cart (cart_after ev (cart_items (init_session st))))
            (match user_data_after ev (user_data (init_session st)) with
             | [] => None
             | d :: data => Some (d :: data)
             end)).
Proof.
  unfold interact, script_run.
  destruct (init_session st) as [c cart data].
  destruct ev as [| | x | | i | n e t]; unfold page_run;
    cbn [counter cart_items user_data counter_delta cart_after user_data_after];
    try destruct (String.eqb x "");
    try destruct (i <? List.length cart)%nat;
    cbn [negb fst snd persist init_session counter cart_items user_data
         stored_counter stored_cart_items stored_user_data];
    unfold view_of_cart; f_equal; f_equal; try lia;
    destruct data; reflexivity.
Qed.

(** X16. Every click ends in a completed run, after at most one rerun, and that
    run shows the cart and the stored data as they are now stored. *)
Theorem click_shows_stored_cart (ev : event) (st : Stored) :
  exists v,
    snd (interact ev st) = Some v
    /\ shown_cart v
       = view_of_cart (cart_items (init_session (fst (interact ev st))))
    /\ shown_user_data v
       = match user_data (init_session (fst (interact ev st))) with
         | [] => None
         | d :: data => Some (d :: data)
         end.
Proof.
  rewrite interact_view, interact_effect, init_persist.
  eexists. split; [reflexivity|]. split; reflexivity.
Qed.

(** X17. The "Counter" metric is drawn after the Decrement button and before
    the Increment button: after a click on Increment the run shows the
    counter as it was before the click, one less than what is stored;
    after every other click it shows the stored counter. *)
Theorem increment_shown_one_run_late (ev : event) (st : Stored) :
  exists v,
    snd (interact ev st) = Some v
    /\ shown_counter v
       = match ev with
         | Increment => counter (init_session (fst (interact ev st))) - 1
         | _ => counter (init_session (fst (interact ev st)))
         end.
Proof.
  rewrite interact_view, interact_effect, init_persist.
  eexists. split; [reflexivity|].
  destruct ev; cbn [shown_counter counter counter_delta]; lia.
Qed.

Lemma interactions_cons (ev : event) (evs : list event) (st : Stored) :
  interactions (ev :: evs) st = interactions evs (fst (interact ev st)).
Proof. reflexivity. Qed.

(** X18. After any sequence of clicks the counter is its old value plus the
    number of Increment clicks minus the number of Decrement clicks; no
    other click, and no rerun, changes it. *)
Theorem counter_after_clicks (evs : list event) (st : Stored) :
  counter (init_session (interactions evs st))
  = counter (init_session st) + fold_right Z.add 0 (map counter_delta evs).
Proof.
  revert st. induction evs as [|ev evs IH]; intros st.
  - simpl. lia.
  - rewrite interactions_cons, IH, interact_effect, init_persist.
    cbn [counter map fold_right]. lia.
Qed.

(** X19. Adding non-empty items one after the other appends them to the cart in
    the order they were added. *)
Theorem cart_after_adding_items (items : list string) (st : Stored) :
  Forall (fun x => x <> "") items ->
  cart_items (init_session (interactions (map AddToCart items) st))
  = cart_items (init_session st) ++ items.
Proof.
  intros Hne. revert st.
  induction Hne as [|x items Hx Hitems IH]; intros st.
  - simpl. now rewrite app_nil_r.
  - cbn [map]. rewrite interactions_cons, IH, interact_effect, init_persist.
    cbn [cart_items cart_after].
    apply String.eqb_neq in Hx. rewrite Hx.
    now rewrite <- app_assoc.
Qed.

Lemma cart_after_adding_items_witness :
  cart_items (init_session
                (interactions (map AddToCart ["apple"; "pear"]) fresh))
  = ["apple"; "pear"].
Proof.
  apply (cart_after_adding_items ["apple"; "pear"] fresh).
  repeat constructor; discriminate.
Defined.

Lemma pop_length {A} (i : nat) (l : list A) :
  (i < List.length l)%nat -> List.length (pop i l) = (List.length l - 1)%nat.
Proof.
  intros Hi. unfold pop. rewrite length_app, length_firstn, length_skipn. lia.
Qed.

Lemma pop_nth_error {A} (i : nat) (l : list A) :
  forall j, nth_error (pop i l) j
            = if (j <? i)%nat then nth_error l j else nth_error l (S j).
Proof.
  revert i. induction l as [|x l IH]; intros i j.
  - unfold pop. rewrite firstn_nil, skipn_nil. simpl.
    destruct (j <? i)%nat; destruct j; reflexivity.
  - destruct i as [|i].
    + unfold pop. simpl. reflexivity.
    + change (pop (S i) (x :: l)) with (x :: pop i l).
      destruct j as [|j]; [reflexivity|].
      cbn [nth_error]. rewrite IH.
      change (S j <? S i)%nat with (j <? i)%nat. reflexivity.
Qed.

(** X20. A click on the Remove button of entry [i] deletes exactly that entry:
    the cart is one shorter, the entries before [i] stay where they are and
    those after it move up by one. *)
Theorem remove_deletes_one_item (i : nat) (st : Stored) :
  (i < List.length (cart_items (init_session st)))%nat ->
  List.length (cart_items (init_session (fst (interact (Remove i) st))))
  = (List.length (cart_items (init_session st)) - 1)%nat
  /\ forall j,
       nth_error (cart_items (init_session (fst (interact (Remove i) st)))) j
       = if (j <? i)%nat
         then nth_error (cart_items (init_session st)) j
         else nth_error (cart_items (init_session st)) (S j).
Proof.
  intros Hi. rewrite interact_effect, init_persist.
  cbn [cart_items cart_after].
  apply Nat.ltb_lt in Hi. rewrite Hi. apply Nat.ltb_lt in Hi.
  split; [now apply pop_length | apply pop_nth_error].
Qed.

Lemma remove_deletes_one_item_witness :
  List.length
    (cart_items
       (init_session
          (fst (interact (Remove 1)
                  (persist (mkSession 0 ["apple"; "pear"; "plum"] []))))))
  = (List.length
       (cart_items
          (init_session (persist (mkSession 0 ["apple"; "pear"; "plum"] []))))
     - 1)%nat.
Proof.
  apply (remove_deletes_one_item 1
           (persist (mkSession 0 ["apple"; "pear"; "plum"] []))).
  simpl. lia.
Defined.

(** X21. Adding an item and then removing the entry at the cart's old length
    gives the old cart back: the new item was put last (and when the text
    was empty nothing was added and that Remove button does not exist). *)
Theorem add_then_remove_last (x : string) (st : Stored) :
  cart_items
    (init_session
       (interactions
          [AddToCart x; Remove (List.length (cart_items (init_session st)))] st))
  = cart_items (init_session st).
Proof.
  unfold interactions. cbn [fold_left].
  rewrite !interact_effect, !init_persist.
  cbn [cart_items cart_after].
  set (cart := cart_items (init_session st)).
  destruct (String.eqb x "").
  - now rewrite Nat.ltb_irrefl.
  - assert (E : (List.length cart <? List.length (cart ++ [x]))%nat = true).
    { apply Nat.ltb_lt. rewrite length_app. simpl. lia. }
    rewrite E. unfold pop.
    rewrite firstn_app, Nat.sub_diag, firstn_all, firstn_O, app_nil_r.
    rewrite skipn_app, skipn_all2 by lia.
    replace (S (List.length cart) - List.length cart)%nat with 1%nat by lia.
    simpl. apply app_nil_r.
Qed.

Lemma user_data_after_clicks (evs : list event) :
  forall st,
    user_data (init_session (interactions evs st)) = []
    <-> user_data (init_session st) = []
        /\ forall n e t, ~ In (Save n e t) evs.
Proof.
  induction evs as [|ev evs IH]; intros st.
  - simpl. tauto.
  - rewrite interactions_cons, IH, interact_effect, init_persist.
    cbn [user_data]. split.
    + intros [H0 Hno]. destruct ev; cbn [user_data_after] in H0;
        try discriminate;
        (split; [exact H0|]); intros n e t [E | Hin];
        try discriminate; eapply Hno; eauto.
    + intros [H0 Hno]. destruct ev; cbn [user_data_after];
        try (split; [exact H0 | intros n e t Hin; eapply Hno; right; eauto]).
      exfalso. eapply Hno. left. reflexivity.
Qed.

(** X22. In a session that starts fresh, the "Stored Data" section has data to
    show exactly when the Save button has been clicked at some point,
    whatever was typed in the form. *)
Theorem stored_data_iff_saved (evs : list event) :
  user_data (init_session (interactions evs fresh)) = []
  <-> forall n e t, ~ In (Save n e t) evs.
Proof.
  rewrite user_data_after_clicks. cbn. tauto.
Qed.

(* ===================================================================== *)
(** ** More on the sample API *)
(* ===================================================================== *)

(** X23. Every [get_item] response that is not a validation failure carries
    integers, never null: a [skip] of at least 0 and a [limit] in
    [[1, 100]], each the value sent or else its default; sending those two
    values explicitly gets the same response. *)
Theorem get_item_accepted_values (item_id : string) (skip limit : option Z)
    (body : json) :
  route_get_item item_id skip limit = OK body ->
  exists s l,
    body = JObj [("item_id", JStr item_id); ("skip", JInt s); ("limit", JInt l);
                 ("message", JStr "GET request processed successfully")]
    /\ 0 <= s /\ 1 <= l <= 100
    /\ (skip = Some s \/ (skip = None /\ s = 0))
    /\ (limit = Some l \/ (limit = None /\ l = 10))
    /\ route_get_item item_id (Some s) (Some l) = OK body.
Proof.
  unfold route_get_item, validate_query, skip_param, limit_param, bound_ok.
  cbn [q_default q_ge q_le].
  destruct skip as [s|], limit as [l|];
    try destruct ((s >=? 0) && true) eqn:Es;
    try destruct ((l >=? 1) && (l <=? 100)) eqn:El;
    try discriminate; intros H; injection H as <-;
    try (rewrite andb_true_r, Z.geb_leb, Z.leb_le in Es);
    try (rewrite andb_true_iff, Z.geb_leb, !Z.leb_le in El).
  - exists s, l. rewrite andb_true_r.
    replace (s >=? 0) with true by (symmetry; rewrite Z.geb_leb; now apply Z.leb_le).
    replace ((l >=? 1) && (l <=? 100)) with true
      by (symmetry; rewrite andb_true_iff, Z.geb_leb, !Z.leb_le; lia).
    unfold get_item, json_of_optional_int. intuition lia.
  - exists s, 10. rewrite andb_true_r.
    replace (s >=? 0) with true by (symmetry; rewrite Z.geb_leb; now apply Z.leb_le).
    unfold get_item, json_of_optional_int. simpl. intuition lia.
  - exists 0, l.
    replace ((l >=? 1) && (l <=? 100)) with true
      by (symmetry; rewrite andb_true_iff, Z.geb_leb, !Z.leb_le; lia).
    unfold get_item, json_of_optional_int. simpl. intuition lia.
  - exists 0, 10. unfold get_item, json_of_optional_int. simpl. intuition lia.
Qed.

Lemma get_item_accepted_values_witness :
  exists s l,
    JObj [("item_id", JStr "abc"); ("skip", JInt 0); ("limit", JInt 25);
          ("message", JStr "GET request processed successfully")]
    = JObj [("item_id", JStr "abc"); ("skip", JInt s); ("limit", JInt l);
            ("message", JStr "GET request processed successfully")]
    /\ 0 <= s /\ 1 <= l <= 100
    /\ (@None Z = Some s \/ (@None Z = None /\ s = 0))
    /\ (Some 25 = Some l \/ (Some 25 = None /\ l = 10))
    /\ route_get_item "abc" (Some s) (Some l)
       = OK (JObj [("item_id", JStr "abc"); ("skip", JInt 0); ("limit", JInt 25);
                   ("message", JStr "GET request processed successfully")]).
Proof.
  apply (get_item_accepted_values "abc" None (Some 25)). reflexivity.
Defined.

